(** * Google Forms MCP gateway: a shallow embedding of [src/main.py]

    The gateway has two stateful parts: the OAuth callback that writes the
    per-user token store, and the JSON-RPC dispatcher behind [POST /mcp]
    that reads the store, builds a credential and calls the Google Forms
    API.  Both are embedded as programs of a small state-and-exception
    monad over an explicit [world]: the token store, the state of the remote
    Google services, and the chronological trace of the side effects that
    were performed.  Python dictionaries are finite maps ([gmap]), Python
    exceptions are [Raise] outcomes. *)

From Stdlib Require Import Ascii String.
From stdpp Require Import gmap strings list fin_maps pretty.

#[local] Open Scope string_scope.
#[local] Set Warnings "-register-all".

(** ** JSON values and the Python operations the code applies to them *)

(** What [await request.json()] can produce.  A float is identified with
    its Python [repr], the only thing the program could observe of it
    (["nan"], ["inf"] and ["-inf"] for the values that [json.loads] reads
    from [NaN], [Infinity], [-Infinity] and from literals out of range).
    A Python [str] is held as its UTF-8 bytes; a surrogate code point,
    which [json.loads] produces from a lone [\uD800]..[\uDFFF] escape and
    which UTF-8 proper cannot carry, is held in the three-byte form
    [ED A0..BF 80..BF]. *)
Inductive json :=
| JNull
| JBool (b : bool)
| JInt (z : Z)
| JFloat (repr : string)
| JStr (s : string)
| JList (l : list json)
| JObj (o : gmap string json).

Inductive exn :=
| KeyError (key : string)
| TypeError
| AttributeError
| ValueError
| UnicodeEncodeError
| StorageUnavailable
| ExternalError (what : string).

Inductive outcome (A : Type) :=
| Return (a : A)
| Raise (e : exn).
Arguments Return {A} a.
Arguments Raise {A} e.

Module Py.

(** [d.get(k, default)]: only dictionaries have a [get] method. *)
Definition get (d : json) (k : string) (dflt : json) : outcome json :=
  match d with
  | JObj o => Return (default dflt (o !! k))
  | _ => Raise AttributeError
  end.

(** [d[k]] with a string key [k]: [KeyError] on a dictionary without
    [k]; lists, strings, numbers and [None] reject a string subscript
    with [TypeError]. *)
Definition getitem (d : json) (k : string) : outcome json :=
  match d with
  | JObj o =>
      match o !! k with
      | Some v => Return v
      | None => Raise (KeyError k)
      end
  | _ => Raise TypeError
  end.

(** [v == "literal"]. *)
Definition eq_str (v : json) (s : string) : bool :=
  match v with
  | JStr s' => bool_decide (s' = s)
  | _ => false
  end.

(** Truth value of an optional string: [None] and [""] are falsy. *)
Definition truthy (o : option string) : bool :=
  match o with
  | Some s => negb (bool_decide (s = ""))
  | None => false
  end.

(** [a or b] on optional strings. *)
Definition or (a b : option string) : option string :=
  if truthy a then a else b.

(** [s.rstrip("/")]. *)
Fixpoint rstrip_slash (s : string) : string :=
  match s with
  | EmptyString => EmptyString
  | String c rest =>
      match rstrip_slash rest with
      | EmptyString => if bool_decide (c = "/"%char) then EmptyString else String c EmptyString
      | rest' => String c rest'
      end
  end.

End Py.

(** ** Data of the gateway *)

(** One entry of the token store, and what an OAuth exchange yields:
    [{"token": ..., "refresh_token": ...}]. *)
Record CredentialRecord := {
  token : string;
  refresh_token : option string;
}.

(** [google.oauth2.credentials.Credentials(...)] as [get_forms_service]
    fills it in. *)
Record Credentials := {
  cred_token : string;
  cred_refresh_token : option string;
  cred_token_uri : string;
  cred_client_id : option string;
  cred_client_secret : option string;
  cred_scopes : list string;
}.

(** The client configuration handed to [Flow.from_client_config]. *)
Record Flow := {
  flow_client_id : option string;
  flow_client_secret : option string;
  flow_auth_uri : string;
  flow_token_uri : string;
  flow_redirect_uris : list string;
  flow_scopes : list string;
  flow_redirect_uri : string;
}.

(** The object [build("forms", "v1", credentials=creds)] returns. *)
Record Service := {
  service_name : string;
  service_version : string;
  service_credentials : Credentials;
}.

(** What a route hands back to FastAPI: a plain dictionary (sent with
    status 200) or an explicit [JSONResponse]. *)
Inductive response :=
| Dict (body : json)
| JSONResponse (status_code : Z) (content : json).

(** *** Rendering a response body

    Starlette's [JSONResponse] renders its content in the constructor:
    [json.dumps(content, ensure_ascii=False, allow_nan=False, ...)
    .encode("utf-8")].  On data that came out of [json.loads] this fails
    in two ways: [json.dumps] raises [ValueError] at a float that is not
    finite, and [encode] raises [UnicodeEncodeError] at a surrogate code
    point in a string or in a key. *)

Definition non_finite (repr : string) : bool :=
  bool_decide (repr = "nan") || bool_decide (repr = "inf")
  || bool_decide (repr = "-inf").

Fixpoint has_surrogate (s : string) : bool :=
  match s with
  | String c rest =>
      match rest with
      | String d _ =>
          (bool_decide (c = ascii_of_nat 237)
           && bool_decide (160 ≤ nat_of_ascii d ≤ 191)%nat)
          || has_surrogate rest
      | EmptyString => false
      end
  | EmptyString => false
  end.

Fixpoint has_non_finite (v : json) : bool :=
  match v with
  | JFloat r => non_finite r
  | JList l => existsb has_non_finite l
  | JObj o => map_fold (λ _ x acc, has_non_finite x || acc) false o
  | _ => false
  end.

Fixpoint has_lone_surrogate (v : json) : bool :=
  match v with
  | JStr s => has_surrogate s
  | JList l => existsb has_lone_surrogate l
  | JObj o =>
      map_fold (λ k x acc, has_surrogate k || has_lone_surrogate x || acc) false o
  | _ => false
  end.

(** The exception that rendering [content] raises, if any. *)
Definition render_error (content : json) : option exn :=
  if has_non_finite content then Some ValueError
  else if has_lone_surrogate content then Some UnicodeEncodeError
  else None.

(** The constructor call [JSONResponse(status_code=..., content=...)]. *)
Definition new_JSONResponse (status_code : Z) (content : json) : outcome response :=
  match render_error content with
  | Some e => Raise e
  | None => Return (JSONResponse status_code content)
  end.


Definition http_body (r : response) : json :=
  match r with
  | Dict body => body
  | JSONResponse _ content => content
  end.

(** The part of a Starlette [Request] that [google_callback] reads. *)
Record Request := {
  url : string;
  query_params : gmap string string;
}.

(** Side effects, in the order they happen. *)
Inductive event :=
| LoadTokens
| SaveTokens (tokens : gmap string CredentialRecord)
| FetchToken (flow : Flow) (authorization_response : string)
| NewCredentials (creds : Credentials)
| Build (service : Service)
| FormsGet (service : Service) (formId : json)
| ResponsesList (service : Service) (formId pageSize : json).

(** ** Environment: configuration and external collaborators *)

(** The process environment and everything on the far side of the network.
    [remote] is the state of Google's services; each outbound call reads and
    may change it, and may fail.  [py_repr] is Python's [repr] of lists and
    dictionaries. *)
Class Env := {
  env_GOOGLE_CLIENT_ID : option string;
  env_GOOGLE_CLIENT_SECRET : option string;
  env_BASE_URL : option string;
  py_repr : json → string;
  remote : Type;
  oauth_fetch_token : Flow → string → remote → outcome CredentialRecord * remote;
  forms_get_execute : Service → json → remote → outcome json * remote;
  responses_list_execute : Service → json → json → remote → outcome json * remote;
}.

Section Gateway.
Context `{E : Env}.

(** *** Module-level constants *)

Definition SCOPES : list string :=
  [ "https://www.googleapis.com/auth/forms.body";
    "https://www.googleapis.com/auth/forms.responses.readonly" ].

Definition GOOGLE_CLIENT_ID : option string := env_GOOGLE_CLIENT_ID.
Definition GOOGLE_CLIENT_SECRET : option string := env_GOOGLE_CLIENT_SECRET.
Definition BASE_URL : string := Py.rstrip_slash (default "" env_BASE_URL).
Definition REDIRECT_URI : string := BASE_URL ++ "/auth/google/callback".

(** *** The world and the monad of effects *)

Record world := {
  token_store : gmap string CredentialRecord;
  store_writable : bool;
  google : remote;
  trace : list event;
}.

Definition M (A : Type) : Type := world → outcome A * world.

#[global] Instance M_ret : MRet M := λ A a w, (Return a, w).

#[global] Instance M_bind : MBind M := λ A B f m w,
  match m w with
  | (Return a, w') => f a w'
  | (Raise e, w') => (Raise e, w')
  end.

Definition raise {A} (e : exn) : M A := λ w, (Raise e, w).

Definition lift {A} (o : outcome A) : M A := λ w, (o, w).

Definition emit (ev : event) : M unit := λ w,
  (Return (),
   {| token_store := token_store w; store_writable := store_writable w;
      google := google w; trace := trace w ++ [ev] |}).

(** An outbound call: runs against the remote state. *)
Definition call_remote {A} (f : remote → outcome A * remote) : M A := λ w,
  let '(o, g) := f (google w) in
  (o, {| token_store := token_store w; store_writable := store_writable w;
         google := g; trace := trace w |}).

(** Modelled from the spec: [tokens.py] ([load_tokens], [save_tokens]) is
    not among the sources.  Per the spec the TokenStore is a durable
    mapping from user id to credential record; [load] returns the whole
    mapping (an unreadable medium counts as the empty mapping) and [save]
    replaces the whole mapping, failing with [StorageUnavailable] when it
    cannot persist. *)
Definition load_tokens : M (gmap string CredentialRecord) := λ w,
  (Return (token_store w),
   {| token_store := token_store w; store_writable := store_writable w;
      google := google w; trace := trace w ++ [LoadTokens] |}).

Definition save_tokens (tokens : gmap string CredentialRecord) : M unit := λ w,
  if store_writable w then
    (Return (),
     {| token_store := tokens; store_writable := store_writable w;
        google := google w; trace := trace w ++ [SaveTokens tokens] |})
  else
    (Raise StorageUnavailable,
     {| token_store := token_store w; store_writable := store_writable w;
        google := google w; trace := trace w ++ [SaveTokens tokens] |}).

(** *** Helpers *)

Definition get_oauth_flow : Flow :=
  {| flow_client_id := GOOGLE_CLIENT_ID;
     flow_client_secret := GOOGLE_CLIENT_SECRET;
     flow_auth_uri := "https://accounts.google.com/o/oauth2/auth";
     flow_token_uri := "https://oauth2.googleapis.com/token";
     flow_redirect_uris := [REDIRECT_URI];
     flow_scopes := SCOPES;
     flow_redirect_uri := REDIRECT_URI |}.

(** [payload.get("meta", {}).get("user_id", "default")] *)
Definition get_user_id (payload : json) : outcome json :=
  match Py.get payload "meta" (JObj ∅) with
  | Return meta => Py.get meta "user_id" (JStr "default")
  | Raise e => Raise e
  end.

(** [str(v)], as the f-string of [auth_error] formats the user id. *)
Definition py_str (v : json) : string :=
  match v with
  | JStr s => s
  | JNull => "None"
  | JBool true => "True"
  | JBool false => "False"
  | JInt z => pretty z
  | JFloat r => r
  | JList _ | JObj _ => py_repr v
  end.

Definition auth_error_message (user_id : json) : string :=
  "Google Forms not connected for user '" ++ py_str user_id
    ++ "'. Visit " ++ BASE_URL ++ "/auth/google?user_id=" ++ py_str user_id.

Definition auth_error (id_ user_id : json) : json :=
  JObj {[ "jsonrpc" := JStr "2.0";
          "id" := id_;
          "error" := JObj {[ "code" := JInt 401;
                             "message" := JStr (auth_error_message user_id) ]} ]}.

(** *** OAuth callback *)

Definition google_callback (request : Request) : M json :=
  let code := query_params request !! "code" in
  if negb (Py.truthy code) then
    mret (JObj {[ "status" := JStr "waiting for google authorization" ]})
  else
    let flow := get_oauth_flow in
    emit (FetchToken flow (url request));;
    credentials ← call_remote (oauth_fetch_token flow (url request));
    let user_id := default "default" (query_params request !! "state") in
    tokens ← load_tokens;
    let existing_refresh := tokens !! user_id ≫= refresh_token in
    let tokens' :=
      <[ user_id := {| token := token credentials;
                       refresh_token :=
                         Py.or (refresh_token credentials) existing_refresh |} ]>
        tokens in
    save_tokens tokens';;
    mret (JObj {[ "status" := JStr "forms connected successfully";
                  "user" := JStr user_id ]}).

(** *** Google Forms helpers *)

(** The [Credentials(...)] and [build(...)] expressions of
    [get_forms_service]. *)
Definition make_credentials (rec : CredentialRecord) : Credentials :=
  {| cred_token := token rec;
     cred_refresh_token := refresh_token rec;
     cred_token_uri := "https://oauth2.googleapis.com/token";
     cred_client_id := GOOGLE_CLIENT_ID;
     cred_client_secret := GOOGLE_CLIENT_SECRET;
     cred_scopes := SCOPES |}.

Definition build_forms_v1 (creds : Credentials) : Service :=
  {| service_name := "forms"; service_version := "v1";
     service_credentials := creds |}.

(** [user_id not in tokens] hashes [user_id]: lists and dictionaries are
    unhashable; the keys of the store are strings, so no other non-string
    value is among them. *)
Definition get_forms_service (user_id : json) : M (option Service) :=
  tokens ← load_tokens;
  match user_id with
  | JList _ | JObj _ => raise TypeError
  | JStr u =>
      match tokens !! u with
      | None => mret None
      | Some rec =>
          let creds := make_credentials rec in
          emit (NewCredentials creds);;
          let service := build_forms_v1 creds in
          emit (Build service);;
          mret (Some service)
      end
  | _ => mret None
  end.

Definition AUTH_REQUIRED : json := JStr "AUTH_REQUIRED".

Definition forms_get_form (user_id form_id : json) : M json :=
  service ← get_forms_service user_id;
  match service with
  | None => mret AUTH_REQUIRED
  | Some service =>
      emit (FormsGet service form_id);;
      form ← call_remote (forms_get_execute service form_id);
      formId ← lift (Py.getitem form "formId");
      info ← lift (Py.getitem form "info");
      title ← lift (Py.getitem info "title");
      info ← lift (Py.getitem form "info");
      documentTitle ← lift (Py.get info "documentTitle" JNull);
      mret (JObj {[ "formId" := formId;
                    "title" := title;
                    "documentTitle" := documentTitle ]})
  end.

Definition forms_list_responses (user_id form_id max_results : json) : M json :=
  service ← get_forms_service user_id;
  match service with
  | None => mret AUTH_REQUIRED
  | Some service =>
      emit (ResponsesList service form_id max_results);;
      res ← call_remote (responses_list_execute service form_id max_results);
      lift (Py.get res "responses" (JList []))
  end.

(** *** MCP endpoint *)

Definition initialize_result (id_ : json) : json :=
  JObj {[ "jsonrpc" := JStr "2.0";
          "id" := id_;
          "result" := JObj {[ "serverInfo" :=
            JObj {[ "name" := JStr "Multi-User Google Forms MCP";
                    "version" := JStr "0.1.0" ]} ]} ]}.

Definition get_form_descriptor : json :=
  JObj {[ "name" := JStr "forms.get_form";
          "description" := JStr "Get basic information about a Google Form";
          "inputSchema" := JObj {[
            "type" := JStr "object";
            "properties" := JObj {[
              "form_id" := JObj {[ "type" := JStr "string";
                                   "description" := JStr "Google Form ID" ]} ]};
            "required" := JList [JStr "form_id"] ]} ]}.

Definition list_responses_descriptor : json :=
  JObj {[ "name" := JStr "forms.list_responses";
          "description" := JStr "List responses of a Google Form";
          "inputSchema" := JObj {[
            "type" := JStr "object";
            "properties" := JObj {[
              "form_id" := JObj {[ "type" := JStr "string";
                                   "description" := JStr "Google Form ID" ]};
              "max_results" := JObj {[ "type" := JStr "integer";
                                       "default" := JInt 5 ]} ]};
            "required" := JList [JStr "form_id"] ]} ]}.

Definition tools_list_result (id_ : json) : json :=
  JObj {[ "jsonrpc" := JStr "2.0";
          "id" := id_;
          "result" := JObj {[ "tools" :=
            JList [get_form_descriptor; list_responses_descriptor] ]} ]}.

Definition tool_result (id_ res : json) : json :=
  JObj {[ "jsonrpc" := JStr "2.0";
          "id" := id_;
          "result" := JObj {[ "content" :=
            JList [JObj {[ "type" := JStr "json"; "json" := res ]}] ]} ]}.

Definition method_not_found_content (id_ : json) : json :=
  JObj {[ "jsonrpc" := JStr "2.0";
          "id" := id_;
          "error" := JObj {[ "code" := JInt (-32601);
                             "message" := JStr "Method not found" ]} ]}.

(** The final [return JSONResponse(status_code=400, content={...})]: the
    constructor renders the content and raises when it cannot. *)
Definition method_not_found (id_ : json) : outcome response :=
  new_JSONResponse 400 (method_not_found_content id_).

(** The body of [if method == "tools/call":].  [None] means that no
    [return] was reached and control falls out of the block. *)
Definition tools_call (payload id_ user_id : json) : M (option response) :=
  params ← lift (Py.getitem payload "params");
  tool ← lift (Py.getitem params "name");
  params ← lift (Py.getitem payload "params");
  args ← lift (Py.get params "arguments" (JObj ∅));
  if Py.eq_str tool "forms.get_form" then
    form_id ← lift (Py.getitem args "form_id");
    res ← forms_get_form user_id form_id;
    if Py.eq_str res "AUTH_REQUIRED" then
      mret (Some (Dict (auth_error id_ user_id)))
    else
      mret (Some (Dict (tool_result id_ res)))
  else if Py.eq_str tool "forms.list_responses" then
    form_id ← lift (Py.getitem args "form_id");
    max_results ← lift (Py.get args "max_results" (JInt 5));
    res ← forms_list_responses user_id form_id max_results;
    if Py.eq_str res "AUTH_REQUIRED" then
      mret (Some (Dict (auth_error id_ user_id)))
    else
      mret (Some (Dict (tool_result id_ res)))
  else
    mret None.

Definition mcp_handler (payload : json) : M response :=
  method ← lift (Py.get payload "method" JNull);
  id_ ← lift (Py.get payload "id" JNull);
  user_id ← lift (get_user_id payload);
  if Py.eq_str method "initialize" then
    mret (Dict (initialize_result id_))
  else if Py.eq_str method "tools/list" then
    mret (Dict (tools_list_result id_))
  else
    returned ← (if Py.eq_str method "tools/call"
                then tools_call payload id_ user_id
                else mret None);
    match returned with
    | Some r => mret r
    | None => lift (method_not_found id_)
    end.

(** *** Reading a request

    The request envelope of the data model: a JSON object whose [meta],
    when present, is an object.  The accessors below name what the
    handler reads from it. *)

Definition field (k : string) (v : json) : option json :=
  match v with
  | JObj o => o !! k
  | _ => None
  end.

Definition is_request (payload : json) : bool :=
  match payload with
  | JObj p =>
      match p !! "meta" with
      | None | Some (JObj _) => true
      | Some _ => false
      end
  | _ => false
  end.

Definition request_method (payload : json) : json :=
  default JNull (field "method" payload).

Definition request_id (payload : json) : json :=
  default JNull (field "id" payload).

Definition request_user (payload : json) : json :=
  default (JStr "default") (field "meta" payload ≫= field "user_id").

Definition request_tool (payload : json) : option json :=
  field "params" payload ≫= field "name".

Definition request_arguments (payload : json) : json :=
  default (JObj ∅) (field "params" payload ≫= field "arguments").

(** [result.content[0].json] of a response body. *)
Definition content0_json (body : json) : option json :=
  match field "result" body ≫= field "content" with
  | Some (JList (item :: _)) => field "json" item
  | _ => None
  end.

(** Events that build a credential or reach out to Google. *)
Definition upstream_work (ev : event) : bool :=
  match ev with
  | LoadTokens | SaveTokens _ => false
  | FetchToken _ _ | NewCredentials _ | Build _
  | FormsGet _ _ | ResponsesList _ _ _ => true
  end.

(** The world after more events were appended and nothing else changed. *)
Definition logged (w : world) (evs : list event) : world :=
  {| token_store := token_store w; store_writable := store_writable w;
     google := google w; trace := trace w ++ evs |}.

(** The events of an authorized [forms_list_responses] up to and
    including the upstream call. *)
Definition list_events (rec : CredentialRecord) (form_id max_results : json) : list event :=
  let service := build_forms_v1 (make_credentials rec) in
  [LoadTokens; NewCredentials (make_credentials rec); Build service;
   ResponsesList service form_id max_results].

(** *** Observations on a run *)

(** The handler answers with the 401 authorization envelope for [U]. *)
Definition answers_unauthorized (payload : json) (U : string) (w : world) : Prop :=
  ∃ w', mcp_handler payload w =
        (Return (Dict (auth_error (request_id payload) (JStr U))), w').

(** The handler turns the request down with a shaped envelope: it
    returns a response whose body has an [error] member. *)
Definition shaped_rejection (payload : json) (w : world) : Prop :=
  ∃ r w', mcp_handler payload w = (Return r, w')
          ∧ is_Some (field "error" (http_body r)).

(** The handler answers with status 400 and the "Method not found"
    envelope. *)
Definition answers_method_not_found (payload : json) (w : world) : Prop :=
  ∃ w', mcp_handler payload w =
        (Return (JSONResponse 400 (method_not_found_content (request_id payload))), w').

(** The handler answers with the 401 envelope for [U] and, besides,
    does no upstream work. *)
Definition only_answers_unauthorized (payload : json) (U : string) (w : world) : Prop :=
  ∃ evs : list event,
    mcp_handler payload w =
      (Return (Dict (auth_error (request_id payload) (JStr U))), logged w evs)
    ∧ Forall (λ ev, upstream_work ev = false) evs.

(** The callback completes and leaves [rec] stored for [U]. *)
Definition callback_stores
    (request : Request) (w : world) (U : string) (rec : CredentialRecord) : Prop :=
  ∃ v w', google_callback request w = (Return v, w')
          ∧ token_store w' !! U = Some rec.

End Gateway.

(** ** The service as a whole *)

(** [s.endswith("/")]. *)
Fixpoint ends_with_slash (s : string) : bool :=
  match s with
  | EmptyString => false
  | String c EmptyString => bool_decide (c = "/"%char)
  | String _ rest => ends_with_slash rest
  end.

(** ["/" * n]. *)
Fixpoint slashes (n : nat) : string :=
  match n with
  | O => EmptyString
  | S n' => String "/"%char (slashes n')
  end.

Section Server.
Context `{E : Env}.

(** The [return {...}] expression of [forms_get_form] on the upstream
    reply [form]: the subscripts are evaluated left to right and the
    first failing one raises. *)
Definition form_summary (form : json) : outcome json :=
  match Py.getitem form "formId" with
  | Raise e => Raise e
  | Return formId =>
      match Py.getitem form "info" with
      | Raise e => Raise e
      | Return info =>
          match Py.getitem info "title" with
          | Raise e => Raise e
          | Return title =>
              match Py.get info "documentTitle" JNull with
              | Raise e => Raise e
              | Return documentTitle =>
                  Return (JObj {[ "formId" := formId;
                                  "title" := title;
                                  "documentTitle" := documentTitle ]})
              end
          end
      end
  end.

(** The events of an authorized [forms_get_form] up to and including the
    upstream call. *)
Definition get_events (rec : CredentialRecord) (form_id : json) : list event :=
  let service := build_forms_v1 (make_credentials rec) in
  [LoadTokens; NewCredentials (make_credentials rec); Build service;
   FormsGet service form_id].

(** The two routes that touch the world, and the world after the
    service handled one request. *)
Inductive http_request :=
| PostMcp (payload : json)
| GetCallback (request : Request).

Definition serve (r : http_request) (w : world) : world :=
  match r with
  | PostMcp payload => snd (mcp_handler payload w)
  | GetCallback request => snd (google_callback request w)
  end.

(** [U] has a record with a truthy (present, non-empty) refresh token. *)
Definition has_refresh_token (store : gmap string CredentialRecord) (U : string) : bool :=
  match store !! U with
  | Some rec => Py.truthy (refresh_token rec)
  | None => false
  end.

(** A program that leaves the token store and its writability alone,
    whatever it returns or raises. *)
Definition keeps_store {A} (m : M A) : Prop :=
  ∀ w, token_store (snd (m w)) = token_store w
       ∧ store_writable (snd (m w)) = store_writable w.

End Server.

(** ** A test double for the environment

    The remote state is a script: what the next token exchange, the next
    [forms.get] and the next [responses.list] answer. *)
Record canned := {
  next_token : outcome CredentialRecord;
  next_form : outcome json;
  next_responses : outcome json;
}.

Definition test_env : Env :=
  {| env_GOOGLE_CLIENT_ID := Some "client-id";
     env_GOOGLE_CLIENT_SECRET := Some "client-secret";
     env_BASE_URL := Some "https://mcp.example/";
     py_repr := λ _, "";
     remote := canned;
     oauth_fetch_token := λ _ _ g, (next_token g, g);
     forms_get_execute := λ _ _ g, (next_form g, g);
     responses_list_execute := λ _ _ _ g, (next_responses g, g) |}.

Definition offline : canned :=
  {| next_token := Raise (ExternalError "token endpoint unreachable");
     next_form := Raise (ExternalError "forms API unreachable");
     next_responses := Raise (ExternalError "forms API unreachable") |}.

Definition test_world (store : gmap string CredentialRecord) (g : canned) : @world test_env :=
  @Build_world test_env store true g [].

Definition call_payload (tool : string) (args : gmap string json) (user : string) : json :=
  JObj {[ "jsonrpc" := JStr "2.0";
          "id" := JInt 7;
          "method" := JStr "tools/call";
          "params" := JObj {[ "name" := JStr tool; "arguments" := JObj args ]};
          "meta" := JObj {[ "user_id" := JStr user ]} ]}.

Definition method_payload (method : string) : json :=
  JObj {[ "jsonrpc" := JStr "2.0"; "id" := JInt 7; "method" := JStr method ]}.

Definition callback_request (query : gmap string string) : Request :=
  {| url := "https://mcp.example/auth/google/callback"; query_params := query |}.

Definition alice_record : CredentialRecord :=
  {| token := "t1"; refresh_token := Some "r1" |}.

(** Google answers the next token exchange with [rec]. *)
Definition exchange_yields (rec : CredentialRecord) : canned :=
  {| next_token := Return rec;
     next_form := Raise (ExternalError "forms API unreachable");
     next_responses := Raise (ExternalError "forms API unreachable") |}.

(** Google answers the next [responses.list] with [reply]. *)
Definition listing_yields (reply : json) : canned :=
  {| next_token := Raise (ExternalError "token endpoint unreachable");
     next_form := Raise (ExternalError "forms API unreachable");
     next_responses := Return reply |}.

(** A call whose [meta.user_id] is any JSON value. *)
Definition call_payload_as (tool : string) (args : gmap string json) (user_id : json) : json :=
  JObj {[ "jsonrpc" := JStr "2.0";
          "id" := JInt 7;
          "method" := JStr "tools/call";
          "params" := JObj {[ "name" := JStr tool; "arguments" := JObj args ]};
          "meta" := JObj {[ "user_id" := user_id ]} ]}.

(** The same request under another id. *)
Definition with_id (id_ : json) (payload : json) : json :=
  match payload with
  | JObj p => JObj (<[ "id" := id_ ]> p)
  | _ => payload
  end.

(** A call with neither [jsonrpc] nor [meta]. *)
Definition bare_call_payload (tool : string) (args : gmap string json) : json :=
  JObj {[ "id" := JInt 7;
          "method" := JStr "tools/call";
          "params" := JObj {[ "name" := JStr tool; "arguments" := JObj args ]} ]}.

(** Google answers the next token exchange with [rec] and the next
    [forms.get] with [reply]. *)
Definition exchange_and_form_yield (rec : CredentialRecord) (reply : json) : canned :=
  {| next_token := Return rec;
     next_form := Return reply;
     next_responses := Raise (ExternalError "forms API unreachable") |}.

(** ** Properties *)

Section GatewayProperties.
Context `{E : Env}.

(** *** Running the monad *)

Lemma run_bind {A B} (m : M A) (f : A → M B) (w : world) :
  (m ≫= f) w =
  match m w with
  | (Return a, w') => f a w'
  | (Raise e, w') => (Raise e, w')
  end.
Proof. reflexivity. Qed.

Lemma run_lift_return {A B} (o : outcome A) (a : A) (f : A → M B) (w : world) :
  o = Return a → (lift o ≫= f) w = f a w.
Proof. by intros ->. Qed.

Lemma run_lift_raise {A B} (o : outcome A) (e : exn) (f : A → M B) (w : world) :
  o = Raise e → (lift o ≫= f) w = (Raise e, w).
Proof. by intros ->. Qed.

Lemma logged_nil (w : world) : logged w [] = w.
Proof. destruct w; unfold logged; simpl. by rewrite app_nil_r. Qed.

Lemma logged_app (w : world) (l1 l2 : list event) :
  logged (logged w l1) l2 = logged w (l1 ++ l2).
Proof. unfold logged; simpl. by rewrite app_assoc. Qed.

Lemma run_emit (ev : event) (w : world) : emit ev w = (Return (), logged w [ev]).
Proof. reflexivity. Qed.

Lemma run_load_tokens (w : world) :
  load_tokens w = (Return (token_store w), logged w [LoadTokens]).
Proof. reflexivity. Qed.

(** *** What the handler reads from a request *)

Lemma request_get_method (payload : json) :
  is_request payload = true →
  Py.get payload "method" JNull = Return (request_method payload).
Proof. by destruct payload. Qed.

Lemma request_get_id (payload : json) :
  is_request payload = true →
  Py.get payload "id" JNull = Return (request_id payload).
Proof. by destruct payload. Qed.

Lemma request_get_user_id (payload : json) :
  is_request payload = true →
  get_user_id payload = Return (request_user payload).
Proof.
  destruct payload as [| | | | | |p]; try done.
  unfold get_user_id, request_user; simpl.
  destruct (p !! "meta") as [[]|] eqn:Hmeta; simpl; try done.
Qed.

(** The prologue of [mcp_handler] on a well-formed request. *)
Lemma mcp_handler_request (payload : json) (w : world) :
  is_request payload = true →
  mcp_handler payload w =
  (if Py.eq_str (request_method payload) "initialize" then
     mret (Dict (initialize_result (request_id payload)))
   else if Py.eq_str (request_method payload) "tools/list" then
     mret (Dict (tools_list_result (request_id payload)))
   else
     returned ← (if Py.eq_str (request_method payload) "tools/call"
                 then tools_call payload (request_id payload) (request_user payload)
                 else mret None);
     match returned with
     | Some r => mret r
     | None => lift (method_not_found (request_id payload))
     end) w.
Proof.
  intros Hreq. unfold mcp_handler.
  rewrite (run_lift_return _ _ _ _ (request_get_method _ Hreq)).
  rewrite (run_lift_return _ _ _ _ (request_get_id _ Hreq)).
  by rewrite (run_lift_return _ _ _ _ (request_get_user_id _ Hreq)).
Qed.

Lemma eq_str_true (v : json) (s : string) : Py.eq_str v s = true ↔ v = JStr s.
Proof.
  destruct v; simpl; try (split; [done | intros [=]]).
  rewrite bool_decide_eq_true. split; [by intros -> | by intros [= ->]].
Qed.

Lemma eq_str_false (v : json) (s : string) : Py.eq_str v s = false ↔ v ≠ JStr s.
Proof.
  rewrite <- not_true_iff_false, eq_str_true. done.
Qed.

(** *** Unknown methods *)

Lemma fold_orb_insert
    (g : string → json → bool) (i : string) (x : json) (m : gmap string json) :
  m !! i = None →
  map_fold (λ k v acc, g k v || acc) false (<[i:=x]> m)
  = g i x || map_fold (λ k v acc, g k v || acc) false m.
Proof.
  intros Hi.
  apply (map_fold_insert_L (λ k v acc, g k v || acc) false i x m); [|done].
  intros j1 j2 z1 z2 y _ _ _. by destruct (g j1 z1), (g j2 z2).
Qed.

Lemma has_non_finite_obj (o : gmap string json) :
  has_non_finite (JObj o)
  = map_fold (λ k v acc, (λ (_ : string) x, has_non_finite x) k v || acc) false o.
Proof. reflexivity. Qed.

Lemma has_lone_surrogate_obj (o : gmap string json) :
  has_lone_surrogate (JObj o)
  = map_fold (λ k v acc, (λ k x, has_surrogate k || has_lone_surrogate x) k v || acc)
      false o.
Proof. reflexivity. Qed.

(** Of the "Method not found" content only the id can fail to render. *)
Lemma render_method_not_found (id_ : json) :
  render_error (method_not_found_content id_) = render_error id_.
Proof.
  pose (error := JObj {[ "code" := JInt (-32601);
                         "message" := JStr "Method not found" ]}).
  assert (has_non_finite error = false) as Herr1 by (vm_compute; reflexivity).
  assert (has_lone_surrogate error = false) as Herr2 by (vm_compute; reflexivity).
  assert (method_not_found_content id_
          = JObj (<["jsonrpc" := JStr "2.0"]>
                    (<["id" := id_]> (<["error" := error]> ∅)))) as ->
    by reflexivity.
  clearbody error.
  unfold render_error.
  rewrite has_non_finite_obj, has_lone_surrogate_obj.
  rewrite !fold_orb_insert by by simplify_map_eq.
  rewrite !map_fold_empty, Herr1, Herr2.
  replace (has_surrogate "jsonrpc") with false by (vm_compute; reflexivity).
  replace (has_surrogate "id") with false by (vm_compute; reflexivity).
  replace (has_surrogate "error") with false by (vm_compute; reflexivity).
  change (has_non_finite (JStr "2.0")) with false.
  replace (has_lone_surrogate (JStr "2.0")) with false by (vm_compute; reflexivity).
  simpl. by rewrite !orb_false_r.
Qed.

Lemma method_not_found_run (id_ : json) :
  method_not_found id_ =
  match render_error id_ with
  | Some e => Raise e
  | None => Return (JSONResponse 400 (method_not_found_content id_))
  end.
Proof.
  unfold method_not_found, new_JSONResponse. by rewrite render_method_not_found.
Qed.

(** The fall-through of the handler: an unknown method. *)
Lemma unknown_method_run (payload : json) (w : world) :
  is_request payload = true →
  request_method payload ≠ JStr "initialize" →
  request_method payload ≠ JStr "tools/list" →
  request_method payload ≠ JStr "tools/call" →
  mcp_handler payload w = (method_not_found (request_id payload), w).
Proof.
  intros Hreq H1 H2 H3.
  rewrite mcp_handler_request by done.
  apply eq_str_false in H1, H2, H3.
  by rewrite H1, H2, H3.
Qed.

(** C3 (amended).  Every request whose [method] is none of
    [initialize], [tools/list], [tools/call] (or is missing), and whose
    id can be rendered as JSON (no non-finite number and no lone
    surrogate in it), is answered with HTTP status 400 and the JSON-RPC
    error envelope with code -32601 and message "Method not found",
    carrying the request's id; nothing else happens. *)
Theorem unknown_method_not_found (payload : json) (w : world) :
  is_request payload = true →
  request_method payload ≠ JStr "initialize" →
  request_method payload ≠ JStr "tools/list" →
  request_method payload ≠ JStr "tools/call" →
  render_error (request_id payload) = None →
  mcp_handler payload w =
  (Return (JSONResponse 400
     (JObj {[ "jsonrpc" := JStr "2.0";
              "id" := request_id payload;
              "error" := JObj {[ "code" := JInt (-32601);
                                 "message" := JStr "Method not found" ]} ]})),
   w).
Proof.
  intros Hreq H1 H2 H3 Hrender.
  rewrite unknown_method_run, method_not_found_run by done.
  by rewrite Hrender.
Qed.

(** The prologue of [tools_call] once [params.name] can be read. *)
Lemma tools_call_request (payload id_ user_id tool : json) (w : world) :
  request_tool payload = Some tool →
  tools_call payload id_ user_id w =
  (let args := request_arguments payload in
   if Py.eq_str tool "forms.get_form" then
     form_id ← lift (Py.getitem args "form_id");
     res ← forms_get_form user_id form_id;
     if Py.eq_str res "AUTH_REQUIRED" then
       mret (Some (Dict (auth_error id_ user_id)))
     else
       mret (Some (Dict (tool_result id_ res)))
   else if Py.eq_str tool "forms.list_responses" then
     form_id ← lift (Py.getitem args "form_id");
     max_results ← lift (Py.get args "max_results" (JInt 5));
     res ← forms_list_responses user_id form_id max_results;
     if Py.eq_str res "AUTH_REQUIRED" then
       mret (Some (Dict (auth_error id_ user_id)))
     else
       mret (Some (Dict (tool_result id_ res)))
   else
     mret None) w.
Proof.
  intros Htool.
  destruct payload as [| | | | | |p]; try done.
  unfold request_tool, request_arguments in *; simpl in *.
  destruct (p !! "params") as [params|] eqn:Hparams; [|done].
  destruct params as [| | | | | |ps]; try done. simpl in *.
  unfold tools_call; simpl. rewrite Hparams.
  unfold mbind at 1 2 3 4, M_bind, lift; simpl. by rewrite Htool.
Qed.

(** The fall-through of the handler: an unknown tool. *)
Lemma unknown_tool_run (payload tool : json) (w : world) :
  is_request payload = true →
  request_method payload = JStr "tools/call" →
  request_tool payload = Some tool →
  tool ≠ JStr "forms.get_form" →
  tool ≠ JStr "forms.list_responses" →
  mcp_handler payload w = (method_not_found (request_id payload), w).
Proof.
  intros Hreq Hmethod Htool H1 H2.
  rewrite mcp_handler_request by done. rewrite Hmethod; simpl.
  rewrite run_bind, (tools_call_request _ _ _ tool) by done.
  apply eq_str_false in H1, H2. by rewrite H1, H2.
Qed.

(** C6 (amended).  A [tools/call] whose [params.name] is neither
    [forms.get_form] nor [forms.list_responses] has exactly the outcome of
    a request with an unrecognised method and the same id, in the same
    world.  When the id can be rendered as JSON that outcome is HTTP 400,
    code -32601, "Method not found", with the world untouched: the token
    store was not consulted and no upstream call was made. *)
Theorem unknown_tool_not_found (payload tool : json) (w : world) :
  is_request payload = true →
  request_method payload = JStr "tools/call" →
  request_tool payload = Some tool →
  tool ≠ JStr "forms.get_form" →
  tool ≠ JStr "forms.list_responses" →
  (render_error (request_id payload) = None →
   mcp_handler payload w =
     (Return (JSONResponse 400
        (JObj {[ "jsonrpc" := JStr "2.0";
                 "id" := request_id payload;
                 "error" := JObj {[ "code" := JInt (-32601);
                                    "message" := JStr "Method not found" ]} ]})),
      w))
  ∧ ∀ other : json,
      is_request other = true →
      request_id other = request_id payload →
      request_method other ≠ JStr "initialize" →
      request_method other ≠ JStr "tools/list" →
      request_method other ≠ JStr "tools/call" →
      mcp_handler other w = mcp_handler payload w.
Proof.
  intros Hreq Hmethod Htool H1 H2.
  pose proof (unknown_tool_run payload tool w Hreq Hmethod Htool H1 H2) as Hrun.
  split.
  - intros Hrender. rewrite Hrun, method_not_found_run. by rewrite Hrender.
  - intros other Hother Hid ???.
    rewrite Hrun, <- Hid. by apply unknown_method_run.
Qed.

(** *** OAuth callback *)

(** C4.  A callback whose query string has no [code] returns the waiting
    status and leaves the world as it was: the token store is neither
    loaded nor saved, and no token exchange is attempted. *)
Theorem callback_without_code (request : Request) (w : world) :
  query_params request !! "code" = None →
  google_callback request w =
  (Return (JObj {[ "status" := JStr "waiting for google authorization" ]}), w).
Proof. intros Hcode. unfold google_callback. by rewrite Hcode. Qed.

(** *** The authorization gate *)

Lemma getitem_field (v : json) (k : string) (x : json) :
  field k v = Some x → Py.getitem v k = Return x.
Proof. destruct v; simpl; try done. by intros ->. Qed.

Lemma get_field (v : json) (k : string) (d x : json) :
  field k v = Some x → Py.get v k d = Return x.
Proof. destruct v; simpl; try done. by intros ->. Qed.

Lemma get_forms_service_unknown (U : string) (w : world) :
  token_store w !! U = None →
  get_forms_service (JStr U) w = (Return None, logged w [LoadTokens]).
Proof.
  intros Hnone. unfold get_forms_service.
  rewrite run_bind, run_load_tokens. by rewrite Hnone.
Qed.

Lemma get_forms_service_known (U : string) (rec : CredentialRecord) (w : world) :
  token_store w !! U = Some rec →
  get_forms_service (JStr U) w =
  (Return (Some (build_forms_v1 (make_credentials rec))),
   logged w [LoadTokens;
             NewCredentials (make_credentials rec);
             Build (build_forms_v1 (make_credentials rec))]).
Proof.
  intros Hsome. unfold get_forms_service.
  rewrite run_bind, run_load_tokens, Hsome.
  rewrite run_bind, run_emit, run_bind, run_emit.
  by rewrite !logged_app.
Qed.

Lemma forms_get_form_unknown (U : string) (form_id : json) (w : world) :
  token_store w !! U = None →
  forms_get_form (JStr U) form_id w = (Return AUTH_REQUIRED, logged w [LoadTokens]).
Proof.
  intros Hnone. unfold forms_get_form.
  by rewrite run_bind, get_forms_service_unknown.
Qed.

Lemma forms_list_responses_unknown (U : string) (form_id max_results : json) (w : world) :
  token_store w !! U = None →
  forms_list_responses (JStr U) form_id max_results w =
  (Return AUTH_REQUIRED, logged w [LoadTokens]).
Proof.
  intros Hnone. unfold forms_list_responses.
  by rewrite run_bind, get_forms_service_unknown.
Qed.

(** A [tools/call] of a known tool without a readable [form_id] stops at
    [args["form_id"]], before anything else is done. *)
Lemma known_tool_without_form_id (payload : json) (tool : string) (w : world) :
  is_request payload = true →
  request_method payload = JStr "tools/call" →
  request_tool payload = Some (JStr tool) →
  tool = "forms.get_form" ∨ tool = "forms.list_responses" →
  field "form_id" (request_arguments payload) = None →
  mcp_handler payload w =
  (Raise (match request_arguments payload with
          | JObj _ => KeyError "form_id"
          | _ => TypeError
          end), w).
Proof.
  intros Hreq Hmethod Htool Hknown Hform.
  rewrite mcp_handler_request by done. rewrite Hmethod; simpl.
  rewrite run_bind, (tools_call_request _ _ _ (JStr tool)) by done.
  assert (Py.getitem (request_arguments payload) "form_id" =
          Raise (match request_arguments payload with
                 | JObj _ => KeyError "form_id"
                 | _ => TypeError
                 end)) as Hraise.
  { destruct (request_arguments payload); simpl in *; try done. by rewrite Hform. }
  destruct Hknown as [-> | ->]; simpl;
    by rewrite (run_lift_raise _ _ _ _ Hraise).
Qed.

Lemma known_tool_unauthorized (payload : json) (tool U : string) (form_id : json) (w : world) :
  is_request payload = true →
  request_method payload = JStr "tools/call" →
  request_tool payload = Some (JStr tool) →
  tool = "forms.get_form" ∨ tool = "forms.list_responses" →
  request_user payload = JStr U →
  token_store w !! U = None →
  field "form_id" (request_arguments payload) = Some form_id →
  mcp_handler payload w =
  (Return (Dict (auth_error (request_id payload) (JStr U))), logged w [LoadTokens]).
Proof.
  intros Hreq Hmethod Htool Hknown Huser Hnone Hform.
  rewrite mcp_handler_request by done. rewrite Hmethod, Huser; simpl.
  rewrite run_bind, (tools_call_request _ _ _ (JStr tool)) by done.
  pose proof (getitem_field _ _ _ Hform) as Hget.
  destruct Hknown as [-> | ->]; simpl;
    rewrite (run_lift_return _ _ _ _ Hget).
  - by rewrite run_bind, forms_get_form_unknown.
  - destruct (request_arguments payload) as [| | | | | |args]; try done.
    simpl. unfold mbind at 1, M_bind, lift.
    by rewrite run_bind, forms_list_responses_unknown.
Qed.

(** C1 (amended).  For every user [U] with no record in the token
    store, a [tools/call] of [forms.get_form] or [forms.list_responses]
    whose arguments carry [form_id] is answered, for both tools alike,
    with the error envelope of code 401 whose message names [U] and ends
    with the recovery URL [<BASE_URL>/auth/google?user_id=<U>]; the only
    effect is one read of the token store. *)
Theorem unauthorized_call_gets_401
    (payload : json) (tool U : string) (form_id : json) (w : world) :
  is_request payload = true →
  request_method payload = JStr "tools/call" →
  request_tool payload = Some (JStr tool) →
  tool = "forms.get_form" ∨ tool = "forms.list_responses" →
  request_user payload = JStr U →
  token_store w !! U = None →
  field "form_id" (request_arguments payload) = Some form_id →
  mcp_handler payload w =
  (Return (Dict
     (JObj {[ "jsonrpc" := JStr "2.0";
              "id" := request_id payload;
              "error" := JObj {[
                "code" := JInt 401;
                "message" := JStr ("Google Forms not connected for user '" ++ U
                                   ++ "'. Visit " ++ BASE_URL
                                   ++ "/auth/google?user_id=" ++ U) ]} ]})),
   logged w [LoadTokens]).
Proof. apply known_tool_unauthorized. Qed.

(** C8 (amended).  The authorization gate comes before any upstream
    work.  For a user [U] with no record in the token store,
    [forms_get_form] and [forms_list_responses] return the
    [AUTH_REQUIRED] marker after a single read of the store, whatever
    their other arguments, and a [tools/call] of either tool, whatever its
    arguments, leaves the world as it was up to logged events none of
    which constructs a credential, builds a service or calls Google.
    When the arguments carry [form_id], the 401 envelope for [U] is
    returned and the only effect is one read of the token store. *)
Theorem gate_before_upstream_work (payload : json) (tool U : string) (w : world) :
  is_request payload = true →
  request_method payload = JStr "tools/call" →
  request_tool payload = Some (JStr tool) →
  tool = "forms.get_form" ∨ tool = "forms.list_responses" →
  request_user payload = JStr U →
  token_store w !! U = None →
  (∀ form_id max_results : json,
      forms_get_form (JStr U) form_id w =
        (Return AUTH_REQUIRED, logged w [LoadTokens])
      ∧ forms_list_responses (JStr U) form_id max_results w =
        (Return AUTH_REQUIRED, logged w [LoadTokens]))
  ∧ (∃ evs : list event,
        snd (mcp_handler payload w) = logged w evs
        ∧ Forall (λ ev, upstream_work ev = false) evs
        ∧ ∀ r : response,
            fst (mcp_handler payload w) = Return r →
            r = Dict (auth_error (request_id payload) (JStr U)))
  ∧ ∀ form_id : json,
      field "form_id" (request_arguments payload) = Some form_id →
      mcp_handler payload w =
        (Return (Dict (auth_error (request_id payload) (JStr U))),
         logged w [LoadTokens]).
Proof.
  intros Hreq Hmethod Htool Hknown Huser Hnone. split; [|split].
  { intros form_id max_results.
    by rewrite forms_get_form_unknown, forms_list_responses_unknown. }
  - destruct (field "form_id" (request_arguments payload)) as [form_id|] eqn:Hform.
    + exists [LoadTokens].
      rewrite (known_tool_unauthorized payload tool U form_id) by done; simpl.
      repeat split; [by repeat constructor | by intros r [= <-]].
    + exists [].
      rewrite (known_tool_without_form_id payload tool) by done; simpl.
      rewrite logged_nil. repeat split; [constructor | intros r [=]].
  - intros form_id Hform. by apply (known_tool_unauthorized payload tool U form_id).
Qed.

(** *** Listing responses *)

Lemma run_call_remote {A} (f : remote → outcome A * remote) (w : world) :
  call_remote f w =
  (fst (f (google w)),
   {| token_store := token_store w; store_writable := store_writable w;
      google := snd (f (google w)); trace := trace w |}).
Proof. unfold call_remote. by destruct (f (google w)). Qed.

Lemma forms_list_responses_known
    (U : string) (rec : CredentialRecord) (form_id max_results : json) (w : world) :
  token_store w !! U = Some rec →
  forms_list_responses (JStr U) form_id max_results w =
  (let call := responses_list_execute (build_forms_v1 (make_credentials rec))
                 form_id max_results (google w) in
   let w' := {| token_store := token_store w; store_writable := store_writable w;
                google := snd call;
                trace := trace w ++ list_events rec form_id max_results |} in
   match fst call with
   | Return res => (Py.get res "responses" (JList []), w')
   | Raise e => (Raise e, w')
   end).
Proof.
  intros Hsome. unfold forms_list_responses.
  rewrite run_bind, (get_forms_service_known U rec) by done.
  rewrite run_bind, run_emit, logged_app, run_bind, run_call_remote; simpl.
  by destruct (fst _).
Qed.

(** The [forms.list_responses] branch of the handler, once [form_id] can
    be read. *)
Lemma list_responses_dispatch (payload form_id : json) (w : world) :
  is_request payload = true →
  request_method payload = JStr "tools/call" →
  request_tool payload = Some (JStr "forms.list_responses") →
  field "form_id" (request_arguments payload) = Some form_id →
  mcp_handler payload w =
  match forms_list_responses (request_user payload) form_id
          (default (JInt 5) (field "max_results" (request_arguments payload))) w with
  | (Return res, w') =>
      (Return (if Py.eq_str res "AUTH_REQUIRED"
               then Dict (auth_error (request_id payload) (request_user payload))
               else Dict (tool_result (request_id payload) res)), w')
  | (Raise e, w') => (Raise e, w')
  end.
Proof.
  intros Hreq Hmethod Htool Hform.
  rewrite mcp_handler_request by done. rewrite Hmethod; simpl.
  rewrite run_bind, (tools_call_request _ _ _ (JStr "forms.list_responses")) by done.
  simpl. rewrite (run_lift_return _ _ _ _ (getitem_field _ _ _ Hform)).
  destruct (request_arguments payload) as [| | | | | |args]; try done.
  simpl. unfold mbind at 1, M_bind, lift. rewrite run_bind.
  destruct (forms_list_responses _ _ _ w) as [[res|e] w']; [|done].
  by destruct (Py.eq_str res "AUTH_REQUIRED").
Qed.

(** C7.  A [tools/call] of [forms.list_responses] with [form_id] runs
    [forms_list_responses] with that very [form_id] and with
    [max_results = 5] when the arguments omit [max_results], and with
    the given value when they carry one.  For an authorized user the
    upstream [responses().list] call is issued with [formId = form_id]
    and [pageSize = max_results]. *)
Theorem list_responses_page_size
    (payload form_id max_results : json) (w : world) :
  is_request payload = true →
  request_method payload = JStr "tools/call" →
  request_tool payload = Some (JStr "forms.list_responses") →
  field "form_id" (request_arguments payload) = Some form_id →
  (field "max_results" (request_arguments payload) = None ∧ max_results = JInt 5)
  ∨ field "max_results" (request_arguments payload) = Some max_results →
  mcp_handler payload w =
    match forms_list_responses (request_user payload) form_id max_results w with
    | (Return res, w') =>
        (Return (if Py.eq_str res "AUTH_REQUIRED"
                 then Dict (auth_error (request_id payload) (request_user payload))
                 else Dict (tool_result (request_id payload) res)), w')
    | (Raise e, w') => (Raise e, w')
    end
  ∧ ∀ (U : string) (rec : CredentialRecord),
      request_user payload = JStr U →
      token_store w !! U = Some rec →
      let service := build_forms_v1 (make_credentials rec) in
      trace (snd (mcp_handler payload w)) =
        (trace w ++ [LoadTokens; NewCredentials (make_credentials rec);
                     Build service; ResponsesList service form_id max_results])%list
      ∧ google (snd (mcp_handler payload w)) =
        snd (responses_list_execute service form_id max_results (google w)).
Proof.
  intros Hreq Hmethod Htool Hform Hmax.
  assert (default (JInt 5) (field "max_results" (request_arguments payload))
          = max_results) as Hdefault.
  { by destruct Hmax as [[-> ->] | ->]. }
  pose proof (list_responses_dispatch payload form_id w Hreq Hmethod Htool Hform) as Hrun.
  rewrite Hdefault in Hrun. split; [exact Hrun|].
  intros U rec Huser Hsome service. rewrite Hrun, Huser.
  rewrite (forms_list_responses_known U rec) by done; simpl.
  destruct (fst (responses_list_execute _ _ _ _)) as [res|e]; [|done].
  by destruct (Py.get res "responses" (JList [])).
Qed.

(** C10.  For an authorized user, the success envelope of
    [forms.list_responses] carries the upstream reply's bare [responses]
    array under [result.content[0].json]; when the reply has no
    [responses] member, the empty list stands there. *)
Theorem list_responses_envelope
    (payload form_id max_results : json) (U : string) (rec : CredentialRecord)
    (reply : gmap string json) (g' : remote) (l : list json) (w : world) :
  is_request payload = true →
  request_method payload = JStr "tools/call" →
  request_tool payload = Some (JStr "forms.list_responses") →
  request_user payload = JStr U →
  token_store w !! U = Some rec →
  field "form_id" (request_arguments payload) = Some form_id →
  max_results = default (JInt 5) (field "max_results" (request_arguments payload)) →
  responses_list_execute (build_forms_v1 (make_credentials rec))
    form_id max_results (google w) = (Return (JObj reply), g') →
  reply !! "responses" = Some (JList l) ∨ (reply !! "responses" = None ∧ l = []) →
  ∃ body : json,
    mcp_handler payload w =
      (Return (Dict body),
       {| token_store := token_store w; store_writable := store_writable w;
          google := g';
          trace := trace w ++ list_events rec form_id max_results |})
    ∧ body = JObj {[ "jsonrpc" := JStr "2.0";
                     "id" := request_id payload;
                     "result" := JObj {[ "content" :=
                       JList [JObj {[ "type" := JStr "json";
                                      "json" := JList l ]}] ]} ]}
    ∧ content0_json body = Some (JList l).
Proof.
  intros Hreq Hmethod Htool Huser Hsome Hform -> Hcall Hreply.
  eexists. split; [|split; [reflexivity|]].
  - rewrite (list_responses_dispatch payload form_id) by done.
    rewrite Huser, (forms_list_responses_known U rec) by done.
    rewrite Hcall; simpl.
    by destruct Hreply as [-> | [-> ->]].
  - unfold content0_json; simpl. by simplify_map_eq.
Qed.

(** *** Refresh-token preservation *)

(** C2 (amended).  A callback for user [U] that carries a code, whose
    exchange yields access token [t2] and whose save succeeds, replaces
    [U]'s record and nobody else's.  The stored access token is [t2].
    The stored refresh token is the previous one when the exchange
    yields none or an empty one, and the new one when the exchange
    yields a non-empty one; a stored refresh token is never replaced by
    an absent value. *)
Theorem callback_merges_refresh_token
    (request : Request) (code U t1 t2 : string) (r1 new : option string)
    (g' : remote) (w : world) :
  query_params request !! "code" = Some code →
  code ≠ "" →
  default "default" (query_params request !! "state") = U →
  token_store w !! U = Some {| token := t1; refresh_token := r1 |} →
  oauth_fetch_token get_oauth_flow (url request) (google w)
    = (Return {| token := t2; refresh_token := new |}, g') →
  store_writable w = true →
  ∃ (stored : option string) (w' : world),
    google_callback request w =
      (Return (JObj {[ "status" := JStr "forms connected successfully";
                       "user" := JStr U ]}), w')
    ∧ token_store w' = <[ U := {| token := t2; refresh_token := stored |} ]> (token_store w)
    ∧ (new = None ∨ new = Some "" → stored = r1)
    ∧ (∀ r2 : string, new = Some r2 → r2 ≠ "" → stored = Some r2)
    ∧ (is_Some r1 → is_Some stored).
Proof.
  intros Hcode Hne Hstate Hstored Hfetch Hwritable.
  exists (Py.or new r1). eexists. split; [|split; [|split; [|split]]].
  - unfold google_callback. rewrite Hcode, Hstate; simpl.
    rewrite bool_decide_eq_false_2 by done; simpl.
    rewrite run_bind, run_emit, run_bind, run_call_remote; simpl.
    rewrite Hfetch; simpl.
    rewrite run_bind, run_load_tokens; simpl. rewrite Hstored; simpl.
    rewrite run_bind. unfold save_tokens at 1; simpl. rewrite Hwritable.
    reflexivity.
  - reflexivity.
  - by intros [-> | ->].
  - intros r2 -> Hr2. unfold Py.or; simpl.
    by rewrite bool_decide_eq_false_2.
  - intros [r Hr]. unfold Py.or. destruct (Py.truthy new) eqn:Htruthy.
    + destruct new; [by eexists | done].
    + rewrite Hr. by eexists.
Qed.

(** *** The tool catalogue *)

(** C5 (amended).  [tools/list] answers every request with the same
    catalogue of exactly two descriptors, [forms.get_form] and
    [forms.list_responses], each declaring [required = ["form_id"]],
    and touches nothing.  A [tools/call] of either tool whose arguments
    have no [form_id] produces no response envelope: [args["form_id"]]
    raises [KeyError('form_id')], unhandled, before the token store is
    read or anything else is done. *)
Theorem tools_list_and_required_form_id
    (listing call : json) (tool : string) (args : gmap string json) (w : world) :
  is_request listing = true →
  request_method listing = JStr "tools/list" →
  is_request call = true →
  request_method call = JStr "tools/call" →
  request_tool call = Some (JStr tool) →
  tool = "forms.get_form" ∨ tool = "forms.list_responses" →
  request_arguments call = JObj args →
  args !! "form_id" = None →
  mcp_handler listing w =
    (Return (Dict
       (JObj {[ "jsonrpc" := JStr "2.0";
                "id" := request_id listing;
                "result" := JObj {[ "tools" :=
                  JList [get_form_descriptor; list_responses_descriptor] ]} ]})),
     w)
  ∧ field "name" get_form_descriptor = Some (JStr "forms.get_form")
  ∧ field "name" list_responses_descriptor = Some (JStr "forms.list_responses")
  ∧ field "inputSchema" get_form_descriptor ≫= field "required"
    = Some (JList [JStr "form_id"])
  ∧ field "inputSchema" list_responses_descriptor ≫= field "required"
    = Some (JList [JStr "form_id"])
  ∧ mcp_handler call w = (Raise (KeyError "form_id"), w).
Proof.
  intros Hlreq Hlmethod Hcreq Hcmethod Htool Hknown Hargs Hform.
  split; [|repeat split].
  - rewrite mcp_handler_request by done. by rewrite Hlmethod.
  - rewrite (known_tool_without_form_id call tool) by (done || by rewrite Hargs).
    by rewrite Hargs.
Qed.

(** *** Request ids *)

Lemma bind_return_inv {A B} (m : M A) (f : A → M B) (w w' : world) (b : B) :
  (m ≫= f) w = (Return b, w') →
  ∃ (a : A) (w1 : world), m w = (Return a, w1) ∧ f a w1 = (Return b, w').
Proof.
  rewrite run_bind. destruct (m w) as [[a|e] w1]; [eauto | done].
Qed.

Lemma mret_return_inv {A} (a b : A) (w w' : world) :
  (mret a : M A) w = (Return b, w') → a = b.
Proof. by intros [= -> _]. Qed.

Lemma tools_call_returns (payload id_ user_id : json) (w w' : world) (r : response) :
  tools_call payload id_ user_id w = (Return (Some r), w') →
  r = Dict (auth_error id_ user_id) ∨ ∃ res, r = Dict (tool_result id_ res).
Proof.
  unfold tools_call. intros H.
  do 4 (apply bind_return_inv in H as (? & ? & _ & H)).
  repeat match type of H with
         | (if ?b then _ else _) _ = _ => destruct b
         | (_ ≫= _) _ = _ => apply bind_return_inv in H as (? & ? & _ & H)
         end;
    apply mret_return_inv in H; try discriminate H; injection H as <-;
    [by left | right; by eexists | by left | right; by eexists].
Qed.

(** Every response of the handler is one of five envelopes, each built
    around the request's id. *)
Lemma mcp_handler_returns (payload : json) (w w' : world) (r : response) :
  mcp_handler payload w = (Return r, w') →
  let id_ := request_id payload in
  r = Dict (initialize_result id_)
  ∨ r = Dict (tools_list_result id_)
  ∨ (∃ user_id, r = Dict (auth_error id_ user_id))
  ∨ (∃ res, r = Dict (tool_result id_ res))
  ∨ (r = JSONResponse 400 (method_not_found_content id_)
     ∧ render_error (method_not_found_content id_) = None).
Proof.
  intros H id_. unfold mcp_handler in H.
  destruct payload as [| | | | | |p]; try done.
  apply bind_return_inv in H as (method & ? & _ & H).
  apply bind_return_inv in H as (id' & ? & [= <- <-] & H).
  apply bind_return_inv in H as (user_id & ? & _ & H).
  destruct (Py.eq_str method "initialize").
  { apply mret_return_inv in H as <-. by left. }
  destruct (Py.eq_str method "tools/list").
  { apply mret_return_inv in H as <-. right; by left. }
  apply bind_return_inv in H as ([r'|] & w1 & Hcall & H).
  - apply mret_return_inv in H as <-.
    destruct (Py.eq_str method "tools/call").
    + apply tools_call_returns in Hcall as [-> | [res ->]].
      * do 2 right; left. by eexists.
      * do 3 right; left. by eexists.
    + by apply mret_return_inv in Hcall.
  - do 4 right. unfold lift in H. apply (f_equal fst) in H. cbn [fst] in H.
    change (method_not_found id_ = Return r) in H.
    unfold method_not_found, new_JSONResponse in H.
    destruct (render_error (method_not_found_content id_)) eqn:Hrender;
      [discriminate H|].
    injection H as <-. split; reflexivity.
Qed.

(** C9.  Every response the handler produces, whichever of the five
    envelopes it is, has an [id] member equal to the request's [id],
    and equal to [null] when the request has none. *)
Theorem response_carries_request_id (payload : json) (w w' : world) (r : response) :
  mcp_handler payload w = (Return r, w') →
  field "id" (http_body r) = Some (default JNull (field "id" payload)).
Proof.
  intros H. apply mcp_handler_returns in H. fold (request_id payload).
  destruct H as [-> | [-> | [[user_id ->] | [[res ->] | [-> _]]]]];
    simpl; by simplify_map_eq.
Qed.

End GatewayProperties.

(** ** Further properties of the service *)

Section ServerProperties.
Context `{E : Env}.

(** *** Configuration *)

Lemma rstrip_slash_spec (s : string) :
  ends_with_slash (Py.rstrip_slash s) = false
  ∧ ∃ n : nat, s = Py.rstrip_slash s ++ slashes n.
Proof.
  induction s as [|c rest [IHend [n IHn]]]; [split; [done | by exists 0]|].
  simpl. destruct (Py.rstrip_slash rest) as [|c' r'] eqn:Hrest.
  - simpl in IHn. case_bool_decide as Hc.
    + split; [done|]. exists (S n). by rewrite Hc, IHn at 1.
    + split; [simpl; by rewrite bool_decide_eq_false_2|].
      exists n. simpl. by rewrite IHn at 1.
  - split; [exact IHend|]. exists n. simpl. by rewrite IHn at 1.
Qed.

(** X1.  [BASE_URL] is the configured base URL with its trailing slashes,
    and nothing else, removed ([""] when the variable is unset): it never
    ends in a slash, so [REDIRECT_URI] and the recovery link of the 401
    message join it to their path with exactly one slash. *)
Theorem base_url_without_trailing_slash :
  ends_with_slash BASE_URL = false
  ∧ (∃ n : nat, default "" env_BASE_URL = BASE_URL ++ slashes n)
  ∧ REDIRECT_URI = BASE_URL ++ "/auth/google/callback".
Proof.
  unfold BASE_URL. destruct (rstrip_slash_spec (default "" env_BASE_URL)) as [Hend Hn].
  by repeat split.
Qed.

(** *** What a request must look like, and what the handler reads *)

Lemma is_request_object (payload : json) :
  is_request payload = true → ∃ p, payload = JObj p.
Proof. destruct payload; try done. by eexists. Qed.

(** X2.  The handler reads nothing of a request but its [method], its
    [id], its [params] and the user id resolved from [meta]: two requests
    that agree on these are handled alike.  In particular the [jsonrpc]
    member is never looked at, and a request without [meta] is handled as
    one of the user ["default"]. *)
Theorem handler_reads_four_members (payload payload' : json) (w : world) :
  is_request payload = true →
  is_request payload' = true →
  request_method payload = request_method payload' →
  request_id payload = request_id payload' →
  request_user payload = request_user payload' →
  field "params" payload = field "params" payload' →
  mcp_handler payload w = mcp_handler payload' w.
Proof.
  intros Hreq Hreq' Hmethod Hid Huser Hparams.
  rewrite !mcp_handler_request by done. rewrite Hmethod, Hid, Huser.
  destruct (is_request_object _ Hreq) as [p ->].
  destruct (is_request_object _ Hreq') as [p' ->].
  assert (tools_call (JObj p) (request_id (JObj p')) (request_user (JObj p')) w
          = tools_call (JObj p') (request_id (JObj p')) (request_user (JObj p')) w) as Hcall.
  { unfold tools_call; simpl in *. by rewrite Hparams. }
  destruct (Py.eq_str (request_method (JObj p')) "initialize"); [done|].
  destruct (Py.eq_str (request_method (JObj p')) "tools/list"); [done|].
  rewrite !run_bind.
  destruct (Py.eq_str (request_method (JObj p')) "tools/call"); [|done].
  by rewrite Hcall.
Qed.

(** X3.  A body that is not a JSON object, or whose [meta] is present but
    not an object ([null] included), makes every method fail, [initialize]
    and unknown methods too: the handler raises [AttributeError] in its
    first three lines, before anything is done. *)
Theorem malformed_request_raises (payload : json) (w : world) :
  is_request payload = false →
  mcp_handler payload w = (Raise AttributeError, w).
Proof.
  intros Hreq. unfold mcp_handler.
  destruct payload as [| | | | | |p]; try done.
  simpl in Hreq. unfold get_user_id; simpl.
  unfold mbind at 1 2 3, M_bind, lift; simpl.
  destruct (p !! "meta") as [[]|]; simpl; done.
Qed.

(** X4.  A [tools/call] from which the tool name cannot be read raises
    before anything is done: [KeyError('params')] without [params],
    [KeyError('name')] when [params] is an object without [name], and
    [TypeError] when [params] is not an object. *)
Theorem tools_call_without_tool_name (payload : json) (w : world) :
  is_request payload = true →
  request_method payload = JStr "tools/call" →
  request_tool payload = None →
  mcp_handler payload w =
  (Raise (match field "params" payload with
          | None => KeyError "params"
          | Some (JObj _) => KeyError "name"
          | Some _ => TypeError
          end), w).
Proof.
  intros Hreq Hmethod Htool.
  rewrite mcp_handler_request by done. rewrite Hmethod; simpl.
  destruct (is_request_object _ Hreq) as [p ->].
  unfold request_tool in Htool; simpl in *.
  rewrite run_bind. unfold tools_call; simpl.
  destruct (p !! "params") as [params|]; [|done].
  unfold mbind at 1 2, M_bind, lift; simpl.
  destruct params as [| | | | | |ps]; try done.
  simpl in *. by rewrite Htool.
Qed.

(** X5.  [initialize] asks for no authorization: whoever the user is and
    whatever the token store holds, the answer is the server identity
    (name and version 0.1.0) under the request's id, and nothing is read,
    written or called. *)
Theorem initialize_needs_no_authorization (payload : json) (w : world) :
  is_request payload = true →
  request_method payload = JStr "initialize" →
  mcp_handler payload w =
  (Return (Dict
     (JObj {[ "jsonrpc" := JStr "2.0";
              "id" := request_id payload;
              "result" := JObj {[ "serverInfo" :=
                JObj {[ "name" := JStr "Multi-User Google Forms MCP";
                        "version" := JStr "0.1.0" ]} ]} ]})),
   w).
Proof.
  intros Hreq Hmethod. rewrite mcp_handler_request by done. by rewrite Hmethod.
Qed.

(** *** Shape of every response *)


(** X7.  Every response body is a JSON-RPC envelope: an object with
    exactly three members, [jsonrpc] = "2.0", [id], and either [result]
    or [error], never both. *)
Theorem response_is_an_envelope
    (payload : json) (w w' : world) (r : response) :
  mcp_handler payload w = (Return r, w') →
  ∃ o : gmap string json,
    http_body r = JObj o
    ∧ o !! "jsonrpc" = Some (JStr "2.0")
    ∧ (dom o = {[ "jsonrpc"; "id"; "result" ]}
       ∨ dom o = {[ "jsonrpc"; "id"; "error" ]}).
Proof.
  intros H. apply mcp_handler_returns in H.
  destruct H as [-> | [-> | [[user_id ->] | [[res ->] | [-> _]]]]];
    simpl; eexists; (split; [reflexivity|]); (split; [by simplify_map_eq|]);
    rewrite !dom_insert_L, dom_singleton_L; [left | left | right | left | right];
    set_solver.
Qed.

(** *** [forms.get_form] for an authorized user *)

Lemma form_summary_run (form : json) (w : world) :
  (formId ← lift (Py.getitem form "formId");
   info ← lift (Py.getitem form "info");
   title ← lift (Py.getitem info "title");
   info ← lift (Py.getitem form "info");
   documentTitle ← lift (Py.get info "documentTitle" JNull);
   mret (JObj {[ "formId" := formId;
                 "title" := title;
                 "documentTitle" := documentTitle ]})) w
  = (form_summary form, w).
Proof.
  unfold form_summary, mbind, M_bind, lift, mret, M_ret.
  destruct (Py.getitem form "formId"); [|done].
  destruct (Py.getitem form "info") as [info|]; [|done].
  destruct (Py.getitem info "title"); [|done].
  by destruct (Py.get info "documentTitle" JNull).
Qed.

Lemma forms_get_form_known
    (U : string) (rec : CredentialRecord) (form_id : json) (w : world) :
  token_store w !! U = Some rec →
  forms_get_form (JStr U) form_id w =
  (let call := forms_get_execute (build_forms_v1 (make_credentials rec))
                 form_id (google w) in
   let w' := {| token_store := token_store w; store_writable := store_writable w;
                google := snd call;
                trace := trace w ++ get_events rec form_id |} in
   match fst call with
   | Return form => (form_summary form, w')
   | Raise e => (Raise e, w')
   end).
Proof.
  intros Hsome. unfold forms_get_form.
  rewrite run_bind, (get_forms_service_known U rec) by done.
  rewrite run_bind, run_emit, logged_app, run_bind, run_call_remote; simpl.
  destruct (fst _) as [form|e]; [|done].
  apply form_summary_run.
Qed.

(** The [forms.get_form] branch of the handler, once [form_id] can be
    read. *)
Lemma get_form_dispatch (payload form_id : json) (w : world) :
  is_request payload = true →
  request_method payload = JStr "tools/call" →
  request_tool payload = Some (JStr "forms.get_form") →
  field "form_id" (request_arguments payload) = Some form_id →
  mcp_handler payload w =
  match forms_get_form (request_user payload) form_id w with
  | (Return res, w') =>
      (Return (if Py.eq_str res "AUTH_REQUIRED"
               then Dict (auth_error (request_id payload) (request_user payload))
               else Dict (tool_result (request_id payload) res)), w')
  | (Raise e, w') => (Raise e, w')
  end.
Proof.
  intros Hreq Hmethod Htool Hform.
  rewrite mcp_handler_request by done. rewrite Hmethod; simpl.
  rewrite run_bind, (tools_call_request _ _ _ (JStr "forms.get_form")) by done.
  simpl. rewrite (run_lift_return _ _ _ _ (getitem_field _ _ _ Hform)).
  rewrite run_bind.
  destruct (forms_get_form _ _ w) as [[res|e] w']; [|done].
  by destruct (Py.eq_str res "AUTH_REQUIRED").
Qed.

(** X8.  For an authorized user, [forms.get_form] calls Google with the
    stored credentials and the request's [form_id] unchanged, and wraps a
    reply that has [formId] and [info.title] as a success envelope whose
    [json] is the summary [{formId, title, documentTitle}];
    [documentTitle] is [null] when the reply has none. *)
Theorem get_form_envelope
    (payload form_id formId title : json) (U : string) (rec : CredentialRecord)
    (reply info : gmap string json) (g' : remote) (w : world) :
  is_request payload = true →
  request_method payload = JStr "tools/call" →
  request_tool payload = Some (JStr "forms.get_form") →
  request_user payload = JStr U →
  token_store w !! U = Some rec →
  field "form_id" (request_arguments payload) = Some form_id →
  forms_get_execute (build_forms_v1 (make_credentials rec)) form_id (google w)
    = (Return (JObj reply), g') →
  reply !! "formId" = Some formId →
  reply !! "info" = Some (JObj info) →
  info !! "title" = Some title →
  mcp_handler payload w =
  (Return (Dict
     (JObj {[ "jsonrpc" := JStr "2.0";
              "id" := request_id payload;
              "result" := JObj {[ "content" :=
                JList [JObj {[
                  "type" := JStr "json";
                  "json" := JObj {[
                    "formId" := formId;
                    "title" := title;
                    "documentTitle" := default JNull (info !! "documentTitle") ]} ]}] ]} ]})),
   {| token_store := token_store w; store_writable := store_writable w;
      google := g';
      trace := trace w ++ get_events rec form_id |}).
Proof.
  intros Hreq Hmethod Htool Huser Hsome Hform Hcall HformId Hinfo Htitle.
  rewrite (get_form_dispatch payload form_id) by done.
  rewrite Huser, (forms_get_form_known U rec) by done.
  rewrite Hcall; simpl. unfold form_summary; simpl.
  by rewrite HformId, Hinfo; simpl; rewrite Htitle.
Qed.

(** X9.  When Google's reply to [forms.get_form] is an object that lacks
    [formId], or [info], or whose [info] lacks [title], the handler raises
    [KeyError] for the first missing key (in that order) after the
    upstream call was made; no envelope is returned. *)
Theorem get_form_incomplete_reply
    (payload form_id : json) (U missing : string) (rec : CredentialRecord)
    (reply : gmap string json) (g' : remote) (w : world) :
  is_request payload = true →
  request_method payload = JStr "tools/call" →
  request_tool payload = Some (JStr "forms.get_form") →
  request_user payload = JStr U →
  token_store w !! U = Some rec →
  field "form_id" (request_arguments payload) = Some form_id →
  forms_get_execute (build_forms_v1 (make_credentials rec)) form_id (google w)
    = (Return (JObj reply), g') →
  (reply !! "formId" = None ∧ missing = "formId")
  ∨ (is_Some (reply !! "formId") ∧ reply !! "info" = None ∧ missing = "info")
  ∨ (is_Some (reply !! "formId")
     ∧ (∃ info : gmap string json,
          reply !! "info" = Some (JObj info) ∧ info !! "title" = None)
     ∧ missing = "title") →
  mcp_handler payload w =
  (Raise (KeyError missing),
   {| token_store := token_store w; store_writable := store_writable w;
      google := g';
      trace := trace w ++ get_events rec form_id |}).
Proof.
  intros Hreq Hmethod Htool Huser Hsome Hform Hcall Hmissing.
  rewrite (get_form_dispatch payload form_id) by done.
  rewrite Huser, (forms_get_form_known U rec) by done.
  rewrite Hcall; simpl. unfold form_summary; simpl.
  destruct Hmissing as [[-> ->] | [([? ->] & -> & ->) | ([? ->] & (info & -> & Htitle) & ->)]];
    simpl; [done | done | by rewrite Htitle].
Qed.

(** X10.  An upstream failure is not caught: when the Google call of
    either tool raises, the handler raises the same exception after the
    call, and no envelope is returned. *)
Theorem upstream_failure_propagates
    (payload form_id : json) (tool U : string) (rec : CredentialRecord)
    (e : exn) (g' : remote) (evs : list event) (w : world) :
  is_request payload = true →
  request_method payload = JStr "tools/call" →
  request_tool payload = Some (JStr tool) →
  request_user payload = JStr U →
  token_store w !! U = Some rec →
  field "form_id" (request_arguments payload) = Some form_id →
  (tool = "forms.get_form"
   ∧ forms_get_execute (build_forms_v1 (make_credentials rec)) form_id (google w)
     = (Raise e, g')
   ∧ evs = get_events rec form_id)
  ∨ (tool = "forms.list_responses"
     ∧ responses_list_execute (build_forms_v1 (make_credentials rec)) form_id
         (default (JInt 5) (field "max_results" (request_arguments payload)))
         (google w)
       = (Raise e, g')
     ∧ evs = list_events rec form_id
               (default (JInt 5) (field "max_results" (request_arguments payload)))) →
  mcp_handler payload w =
  (Raise e,
   {| token_store := token_store w; store_writable := store_writable w;
      google := g'; trace := trace w ++ evs |}).
Proof.
  intros Hreq Hmethod Htool Huser Hsome Hform [(-> & Hcall & ->) | (-> & Hcall & ->)].
  - rewrite (get_form_dispatch payload form_id) by done.
    rewrite Huser, (forms_get_form_known U rec) by done.
    by rewrite Hcall.
  - rewrite (list_responses_dispatch payload form_id) by done.
    rewrite Huser, (forms_list_responses_known U rec) by done.
    by rewrite Hcall.
Qed.

Lemma form_summary_returns (form res : json) :
  form_summary form = Return res →
  ∃ o : gmap string json,
    res = JObj o ∧ dom o = {[ "formId"; "title"; "documentTitle" ]}.
Proof.
  unfold form_summary.
  destruct (Py.getitem form "formId"); [|done].
  destruct (Py.getitem form "info") as [info|]; [|done].
  destruct (Py.getitem info "title"); [|done].
  destruct (Py.get info "documentTitle" JNull); [|done].
  intros [= <-]. eexists. split; [reflexivity|].
  rewrite !dom_insert_L, dom_singleton_L. set_solver.
Qed.

(** X11.  Whatever Google replies, a response to [forms.get_form] for an
    authorized user is never the 401 envelope: it is a success envelope
    whose [json] has exactly the members [formId], [title] and
    [documentTitle], so no other field of the upstream form gets out. *)
Theorem get_form_returns_only_the_summary
    (payload form_id : json) (U : string) (rec : CredentialRecord)
    (w w' : world) (r : response) :
  is_request payload = true →
  request_method payload = JStr "tools/call" →
  request_tool payload = Some (JStr "forms.get_form") →
  request_user payload = JStr U →
  token_store w !! U = Some rec →
  field "form_id" (request_arguments payload) = Some form_id →
  mcp_handler payload w = (Return r, w') →
  ∃ o : gmap string json,
    r = Dict (tool_result (request_id payload) (JObj o))
    ∧ dom o = {[ "formId"; "title"; "documentTitle" ]}.
Proof.
  intros Hreq Hmethod Htool Huser Hsome Hform.
  rewrite (get_form_dispatch payload form_id) by done.
  rewrite Huser, (forms_get_form_known U rec) by done; simpl.
  destruct (fst (forms_get_execute _ _ _)) as [form|e]; [|done].
  destruct (form_summary form) as [res|e] eqn:Hsummary; [|done].
  destruct (form_summary_returns _ _ Hsummary) as (o & -> & Hdom).
  intros [= <- _]. by exists o.
Qed.

(** *** [forms.list_responses] for an authorized user *)

(** X12.  For an authorized user and a reply that is an object,
    [forms.list_responses] nests whatever stands under [responses] (the
    empty list when the member is missing, [null] when it is [null])
    verbatim under [result.content[0].json].  The one exception is the
    string "AUTH_REQUIRED", which the handler takes for the marker of a
    missing authorization and answers with the 401 envelope. *)
Theorem list_responses_passes_through
    (payload form_id : json) (U : string) (rec : CredentialRecord)
    (reply : gmap string json) (g' : remote) (w : world) :
  is_request payload = true →
  request_method payload = JStr "tools/call" →
  request_tool payload = Some (JStr "forms.list_responses") →
  request_user payload = JStr U →
  token_store w !! U = Some rec →
  field "form_id" (request_arguments payload) = Some form_id →
  responses_list_execute (build_forms_v1 (make_credentials rec)) form_id
    (default (JInt 5) (field "max_results" (request_arguments payload)))
    (google w)
    = (Return (JObj reply), g') →
  let responses := default (JList []) (reply !! "responses") in
  mcp_handler payload w =
  (Return (if Py.eq_str responses "AUTH_REQUIRED"
           then Dict (auth_error (request_id payload) (JStr U))
           else Dict (tool_result (request_id payload) responses)),
   {| token_store := token_store w; store_writable := store_writable w;
      google := g';
      trace := trace w ++
               list_events rec form_id
                 (default (JInt 5) (field "max_results" (request_arguments payload))) |}).
Proof.
  intros Hreq Hmethod Htool Huser Hsome Hform Hcall responses.
  rewrite (list_responses_dispatch payload form_id) by done.
  rewrite Huser, (forms_list_responses_known U rec) by done.
  by rewrite Hcall.
Qed.

(** *** User ids that are not strings *)

Lemma known_tool_auth_required
    (payload : json) (tool : string) (form_id : json) (w w1 : world) :
  is_request payload = true →
  request_method payload = JStr "tools/call" →
  request_tool payload = Some (JStr tool) →
  tool = "forms.get_form" ∨ tool = "forms.list_responses" →
  field "form_id" (request_arguments payload) = Some form_id →
  (∀ form_id max_results,
      forms_get_form (request_user payload) form_id w = (Return AUTH_REQUIRED, w1)
      ∧ forms_list_responses (request_user payload) form_id max_results w
        = (Return AUTH_REQUIRED, w1)) →
  mcp_handler payload w =
  (Return (Dict (auth_error (request_id payload) (request_user payload))), w1).
Proof.
  intros Hreq Hmethod Htool [-> | ->] Hform Hauth.
  - rewrite (get_form_dispatch payload form_id) by done.
    by rewrite (proj1 (Hauth form_id JNull)).
  - rewrite (list_responses_dispatch payload form_id) by done.
    by rewrite (proj2 (Hauth form_id _)).
Qed.

(** X13.  A user id that is [null], a boolean or a number is never
    authorized, whatever the token store holds (its keys are strings): a
    call of either tool is answered with the 401 envelope, whose message
    and recovery URL spell the id the way Python's [str] does. *)
Theorem non_string_user_is_unauthorized
    (payload : json) (tool : string) (form_id : json) (w : world) :
  is_request payload = true →
  request_method payload = JStr "tools/call" →
  request_tool payload = Some (JStr tool) →
  tool = "forms.get_form" ∨ tool = "forms.list_responses" →
  field "form_id" (request_arguments payload) = Some form_id →
  match request_user payload with
  | JNull | JBool _ | JInt _ | JFloat _ => True
  | JStr _ | JList _ | JObj _ => False
  end →
  mcp_handler payload w =
  (Return (Dict
     (JObj {[ "jsonrpc" := JStr "2.0";
              "id" := request_id payload;
              "error" := JObj {[
                "code" := JInt 401;
                "message" := JStr ("Google Forms not connected for user '"
                                   ++ py_str (request_user payload)
                                   ++ "'. Visit " ++ BASE_URL
                                   ++ "/auth/google?user_id="
                                   ++ py_str (request_user payload)) ]} ]})),
   logged w [LoadTokens]).
Proof.
  intros Hreq Hmethod Htool Hknown Hform Hscalar.
  apply (known_tool_auth_required payload tool form_id); try done.
  intros f mr. unfold forms_get_form, forms_list_responses, get_forms_service.
  rewrite !run_bind, run_load_tokens.
  by destruct (request_user payload).
Qed.

(** X14.  A user id that is a list or an object cannot be looked up in
    the token store: [user_id not in tokens] raises [TypeError]
    (unhashable) right after the store was loaded, for either tool. *)
Theorem unhashable_user_raises
    (payload : json) (tool : string) (form_id : json) (w : world) :
  is_request payload = true →
  request_method payload = JStr "tools/call" →
  request_tool payload = Some (JStr tool) →
  tool = "forms.get_form" ∨ tool = "forms.list_responses" →
  field "form_id" (request_arguments payload) = Some form_id →
  match request_user payload with
  | JList _ | JObj _ => True
  | _ => False
  end →
  mcp_handler payload w = (Raise TypeError, logged w [LoadTokens]).
Proof.
  intros Hreq Hmethod Htool [-> | ->] Hform Hunhashable.
  - rewrite (get_form_dispatch payload form_id) by done.
    unfold forms_get_form, get_forms_service.
    rewrite !run_bind, run_load_tokens.
    by destruct (request_user payload).
  - rewrite (list_responses_dispatch payload form_id) by done.
    unfold forms_list_responses, get_forms_service.
    rewrite !run_bind, run_load_tokens.
    by destruct (request_user payload).
Qed.

(** *** The handler never writes the token store *)

Lemma keeps_store_bind {A B} (m : M A) (f : A → M B) :
  keeps_store m → (∀ a, keeps_store (f a)) → keeps_store (m ≫= f).
Proof.
  intros Hm Hf w. rewrite run_bind.
  destruct (Hm w) as [Hs Hw]. destruct (m w) as [[a|e] w1]; simpl in *.
  - destruct (Hf a w1) as [Hs' Hw']. by rewrite Hs', Hw'.
  - done.
Qed.

Lemma keeps_store_ret {A} (a : A) : keeps_store (mret a : M A).
Proof. done. Qed.

Lemma keeps_store_lift {A} (o : outcome A) : keeps_store (lift o).
Proof. done. Qed.

Lemma keeps_store_raise {A} (e : exn) : keeps_store (raise e : M A).
Proof. done. Qed.

Lemma keeps_store_emit (ev : event) : keeps_store (emit ev).
Proof. done. Qed.

Lemma keeps_store_load : keeps_store load_tokens.
Proof. done. Qed.

Lemma keeps_store_call_remote {A} (f : remote → outcome A * remote) :
  keeps_store (call_remote f).
Proof. intros w. by rewrite run_call_remote. Qed.

Ltac keeps_store_step :=
  first
    [ apply keeps_store_ret | apply keeps_store_lift | apply keeps_store_raise
    | apply keeps_store_emit | apply keeps_store_load
    | apply keeps_store_call_remote
    | apply keeps_store_bind; [|intros ?]
    | match goal with
      | |- keeps_store (if ?b then _ else _) => destruct b
      | |- keeps_store (match ?x with _ => _ end) => destruct x
      end ].

Lemma keeps_store_get_forms_service (user_id : json) :
  keeps_store (get_forms_service user_id).
Proof. unfold get_forms_service. repeat keeps_store_step. Qed.

Lemma keeps_store_forms_get_form (user_id form_id : json) :
  keeps_store (forms_get_form user_id form_id).
Proof.
  unfold forms_get_form.
  apply keeps_store_bind; [apply keeps_store_get_forms_service|].
  intros [service|]; repeat keeps_store_step.
Qed.

Lemma keeps_store_forms_list_responses (user_id form_id max_results : json) :
  keeps_store (forms_list_responses user_id form_id max_results).
Proof.
  unfold forms_list_responses.
  apply keeps_store_bind; [apply keeps_store_get_forms_service|].
  intros [service|]; repeat keeps_store_step.
Qed.

Ltac keeps_store_tool :=
  repeat first
    [ apply keeps_store_forms_get_form
    | apply keeps_store_forms_list_responses
    | keeps_store_step ].

Lemma keeps_store_tools_call (payload id_ user_id : json) :
  keeps_store (tools_call payload id_ user_id).
Proof. unfold tools_call. keeps_store_tool. Qed.

Lemma keeps_store_mcp_handler (payload : json) : keeps_store (mcp_handler payload).
Proof.
  unfold mcp_handler.
  repeat first [ apply keeps_store_tools_call | keeps_store_step ].
Qed.

(** X15.  [POST /mcp] never changes the token store: whatever the
    request, and whether the handler returns or raises, the stored
    credentials afterwards are those before.  Only the OAuth callback
    writes them. *)
Theorem mcp_handler_never_writes_tokens (payload : json) (w : world) :
  token_store (snd (mcp_handler payload w)) = token_store w
  ∧ store_writable (snd (mcp_handler payload w)) = store_writable w.
Proof. apply keeps_store_mcp_handler. Qed.

(** *** The OAuth callback on every path *)

Lemma google_callback_run (request : Request) (w : world) :
  google_callback request w =
  if negb (Py.truthy (query_params request !! "code")) then
    (Return (JObj {[ "status" := JStr "waiting for google authorization" ]}), w)
  else
    let user_id := default "default" (query_params request !! "state") in
    let exchange := oauth_fetch_token get_oauth_flow (url request) (google w) in
    match fst exchange with
    | Raise e =>
        (Raise e,
         {| token_store := token_store w; store_writable := store_writable w;
            google := snd exchange;
            trace := trace w ++ [FetchToken get_oauth_flow (url request)] |})
    | Return credentials =>
        let tokens' :=
          <[ user_id := {| token := token credentials;
                           refresh_token :=
                             Py.or (refresh_token credentials)
                               (token_store w !! user_id ≫= refresh_token) |} ]>
            (token_store w) in
        let evs := [FetchToken get_oauth_flow (url request);
                    LoadTokens; SaveTokens tokens'] in
        if store_writable w then
          (Return (JObj {[ "status" := JStr "forms connected successfully";
                           "user" := JStr user_id ]}),
           {| token_store := tokens'; store_writable := store_writable w;
              google := snd exchange; trace := trace w ++ evs |})
        else
          (Raise StorageUnavailable,
           {| token_store := token_store w; store_writable := store_writable w;
              google := snd exchange; trace := trace w ++ evs |})
    end.
Proof.
  unfold google_callback.
  destruct (negb (Py.truthy (query_params request !! "code"))); [done|].
  rewrite run_bind, run_emit, run_bind, run_call_remote; simpl.
  destruct (fst (oauth_fetch_token _ _ _)) as [credentials|e]; [|done].
  rewrite run_bind, run_load_tokens; simpl.
  rewrite run_bind. unfold save_tokens at 1; simpl.
  destruct (store_writable w) eqn:Hwritable; simpl;
    by rewrite <- !(assoc_L (++)).
Qed.

Lemma truthy_code (code : string) : code ≠ "" → Py.truthy (Some code) = true.
Proof. intros Hne. simpl. by rewrite bool_decide_eq_false_2. Qed.

(** X16.  First authorization: a callback with a code for a user who has
    no record yet, whose exchange and save succeed, creates the record
    with the exchanged access token and the exchanged refresh token (none
    when the exchange yields none or an empty one), leaves every other
    user's record alone, and loads and saves the store exactly once.  The
    user is the [state] parameter, or ["default"] without one. *)
Theorem first_authorization_creates_record
    (request : Request) (code U t2 : string) (new : option string)
    (g' : remote) (w : world) :
  query_params request !! "code" = Some code →
  code ≠ "" →
  U = default "default" (query_params request !! "state") →
  token_store w !! U = None →
  oauth_fetch_token get_oauth_flow (url request) (google w)
    = (Return {| token := t2; refresh_token := new |}, g') →
  store_writable w = true →
  let tokens' :=
    <[ U := {| token := t2;
               refresh_token := if Py.truthy new then new else None |} ]>
      (token_store w) in
  google_callback request w =
  (Return (JObj {[ "status" := JStr "forms connected successfully";
                   "user" := JStr U ]}),
   {| token_store := tokens'; store_writable := true; google := g';
      trace := trace w ++ [FetchToken get_oauth_flow (url request);
                           LoadTokens; SaveTokens tokens'] |}).
Proof.
  intros Hcode Hne -> Hnone Hfetch Hwritable tokens'.
  rewrite google_callback_run, Hcode, truthy_code by done; simpl.
  rewrite Hfetch, Hwritable; simpl. subst tokens'. by rewrite Hnone.
Qed.

(** X17.  An empty [code] parameter ([?code=]) counts as no code: the
    callback returns the waiting status and does nothing. *)
Theorem callback_with_empty_code (request : Request) (w : world) :
  query_params request !! "code" = Some "" →
  google_callback request w =
  (Return (JObj {[ "status" := JStr "waiting for google authorization" ]}), w).
Proof. intros Hcode. by rewrite google_callback_run, Hcode. Qed.

(** X18.  When the token exchange fails, the callback raises the same
    exception and the token store is neither loaded nor saved: the only
    effect is the attempted exchange. *)
Theorem callback_exchange_failure
    (request : Request) (code : string) (e : exn) (g' : remote) (w : world) :
  query_params request !! "code" = Some code →
  code ≠ "" →
  oauth_fetch_token get_oauth_flow (url request) (google w) = (Raise e, g') →
  google_callback request w =
  (Raise e,
   {| token_store := token_store w; store_writable := store_writable w;
      google := g';
      trace := trace w ++ [FetchToken get_oauth_flow (url request)] |}).
Proof.
  intros Hcode Hne Hfetch.
  rewrite google_callback_run, Hcode, truthy_code by done; simpl.
  by rewrite Hfetch.
Qed.

(** *** What one run of the callback may change *)

Lemma or_keeps_truthy (new old : option string) :
  Py.truthy old = true → Py.truthy (Py.or new old) = true.
Proof. intros Hold. unfold Py.or. by destruct (Py.truthy new) eqn:Hnew. Qed.

Lemma callback_return_cases (request : Request) (w w' : world) (v : json) :
  google_callback request w = (Return v, w') →
  token_store w' = token_store w
  ∨ ∃ (t : string) (new : option string),
      token_store w' =
      <[ default "default" (query_params request !! "state") :=
           {| token := t;
              refresh_token :=
                Py.or new
                  (token_store w !! default "default" (query_params request !! "state")
                     ≫= refresh_token) |} ]>
        (token_store w).
Proof.
  rewrite google_callback_run.
  destruct (negb _); [intros [= _ <-]; by left|]. simpl.
  destruct (fst _) as [credentials|e]; [|discriminate].
  destruct (store_writable w); [|discriminate].
  intros [= _ <-]. right. by eexists _, _.
Qed.

(** X19.  One run of the OAuth callback that returns (the waiting status
    or success), for whichever user, does not take away or empty a
    refresh token: a user who held a present, non-empty refresh token in
    the store the run started from holds one in the store it leaves. *)
Theorem callback_keeps_refresh_tokens
    (request : Request) (w w' : world) (v : json) (U : string) :
  google_callback request w = (Return v, w') →
  has_refresh_token (token_store w) U = true →
  has_refresh_token (token_store w') U = true.
Proof.
  intros Hrun Hhas.
  destruct (callback_return_cases request w w' v Hrun) as [-> | (t & new & ->)];
    [done|].
  unfold has_refresh_token in *.
  destruct (decide (default "default" (query_params request !! "state") = U))
    as [-> | Hne].
  - rewrite lookup_insert_eq; simpl.
    destruct (token_store w !! _) as [rec|]; [|done].
    by apply or_keeps_truthy.
  - by rewrite lookup_insert_ne.
Qed.

(** X20.  One run of the OAuth callback that returns touches at most
    one record, that of the user named by [state] (["default"] without
    one): every other user's record is afterwards what it was, and no
    user who had a record is left without one. *)
Theorem callback_touches_one_record
    (request : Request) (w w' : world) (v : json) :
  google_callback request w = (Return v, w') →
  (∀ V : string,
      V ≠ default "default" (query_params request !! "state") →
      token_store w' !! V = token_store w !! V)
  ∧ (∀ U : string,
      is_Some (token_store w !! U) → is_Some (token_store w' !! U)).
Proof.
  intros Hrun.
  destruct (callback_return_cases request w w' v Hrun) as [-> | (t & new & ->)];
    [done|].
  split.
  - intros V Hne. by rewrite lookup_insert_ne.
  - intros U Hsome.
    destruct (decide (default "default" (query_params request !! "state") = U))
      as [-> | Hne].
    + rewrite lookup_insert_eq. by eexists.
    + by rewrite lookup_insert_ne.
Qed.

(** X21.  A successful callback authorizes the user for the calls that
    follow: after it, a [forms.get_form] call of that user is no longer
    turned away but reaches Google, with credentials built from the new
    access token and the merged refresh token. *)
Theorem callback_then_call_reaches_google
    (request : Request) (code U t2 : string) (new : option string)
    (g' : remote) (payload form_id : json) (w : world) :
  query_params request !! "code" = Some code →
  code ≠ "" →
  U = default "default" (query_params request !! "state") →
  oauth_fetch_token get_oauth_flow (url request) (google w)
    = (Return {| token := t2; refresh_token := new |}, g') →
  store_writable w = true →
  is_request payload = true →
  request_method payload = JStr "tools/call" →
  request_tool payload = Some (JStr "forms.get_form") →
  request_user payload = JStr U →
  field "form_id" (request_arguments payload) = Some form_id →
  let w' := serve (GetCallback request) w in
  let rec := {| token := t2;
                refresh_token :=
                  Py.or new (token_store w !! U ≫= refresh_token) |} in
  token_store w' !! U = Some rec
  ∧ trace (serve (PostMcp payload) w') = (trace w' ++ get_events rec form_id)%list
  ∧ google (serve (PostMcp payload) w')
    = snd (forms_get_execute (build_forms_v1 (make_credentials rec)) form_id g').
Proof.
  intros Hcode Hne -> Hfetch Hwritable Hreq Hmethod Htool Huser Hform w' rec.
  assert (token_store w' !! default "default" (query_params request !! "state")
          = Some rec ∧ google w' = g') as [Hrec Hg].
  { subst w'; simpl.
    rewrite google_callback_run, Hcode, truthy_code by done; simpl.
    rewrite Hfetch, Hwritable; simpl. by rewrite lookup_insert_eq. }
  split; [exact Hrec|]. simpl.
  rewrite (get_form_dispatch payload form_id) by done.
  rewrite Huser, (forms_get_form_known _ rec) by done; simpl.
  rewrite Hg.
  destruct (fst (forms_get_execute _ _ _)) as [form|e]; [|done].
  by destruct (form_summary form) as [res|e].
Qed.

End ServerProperties.

(** ** The properties on concrete runs *)

#[local] Existing Instance test_env.

(** The statement of C1 fails when [form_id] is missing: the call of an
    unauthorized user is not answered with the 401 envelope but stops
    with [KeyError('form_id')]. *)
Lemma unauthorized_call_without_form_id :
  let payload := call_payload "forms.get_form" ∅ "alice" in
  let w := test_world ∅ offline in
  is_request payload = true
  ∧ request_method payload = JStr "tools/call"
  ∧ request_tool payload = Some (JStr "forms.get_form")
  ∧ request_user payload = JStr "alice"
  ∧ token_store w !! "alice" = None
  ∧ fst (mcp_handler payload w) = Raise (KeyError "form_id")
  ∧ ¬ answers_unauthorized payload "alice" w.
Proof.
  intros payload w.
  assert (fst (mcp_handler payload w) = Raise (KeyError "form_id")) as Hrun
    by (vm_compute; reflexivity).
  repeat split; try (vm_compute; reflexivity).
  intros [w' H]. rewrite H in Hrun. discriminate Hrun.
Qed.

Lemma unauthorized_call_gets_401_witness :
  let payload := call_payload "forms.list_responses" {[ "form_id" := JStr "X" ]} "alice" in
  let w := test_world ∅ offline in
  token_store w !! "alice" = None
  ∧ field "form_id" (request_arguments payload) = Some (JStr "X")
  ∧ mcp_handler payload w =
    (Return (Dict
       (JObj {[ "jsonrpc" := JStr "2.0";
                "id" := JInt 7;
                "error" := JObj {[
                  "code" := JInt 401;
                  "message" := JStr "Google Forms not connected for user 'alice'. Visit https://mcp.example/auth/google?user_id=alice" ]} ]})),
     logged w [LoadTokens]).
Proof.
  intros payload w. split; [reflexivity | split; [reflexivity |]].
  apply (unauthorized_call_gets_401 payload "forms.list_responses" "alice" (JStr "X") w);
    try reflexivity.
  right; reflexivity.
Defined.

(** The statement of C2 fails for an empty refresh token: Python's [or]
    takes [""] for absent, so the stored refresh token stays [r1]. *)
Lemma callback_with_empty_refresh_token :
  let request := callback_request {[ "code" := "abc"; "state" := "alice" ]} in
  let yielded := {| token := "t2"; refresh_token := Some "" |} in
  let w := test_world {[ "alice" := alice_record ]} (exchange_yields yielded) in
  token_store w !! "alice" = Some {| token := "t1"; refresh_token := Some "r1" |}
  ∧ oauth_fetch_token get_oauth_flow (url request) (google w) = (Return yielded, google w)
  ∧ token_store (snd (google_callback request w)) !! "alice"
    = Some {| token := "t2"; refresh_token := Some "r1" |}
  ∧ ¬ callback_stores request w "alice" yielded.
Proof.
  intros request yielded w.
  assert (token_store (snd (google_callback request w)) !! "alice"
          = Some {| token := "t2"; refresh_token := Some "r1" |}) as Hrun
    by (vm_compute; reflexivity).
  repeat split; try (vm_compute; reflexivity).
  intros (v & w' & H & Hstored). rewrite H in Hrun; simpl in Hrun.
  rewrite Hstored in Hrun. discriminate Hrun.
Qed.

Lemma callback_merges_refresh_token_witness :
  let request := callback_request {[ "code" := "abc"; "state" := "alice" ]} in
  let yielded := {| token := "t2"; refresh_token := None |} in
  let w := test_world {[ "alice" := alice_record ]} (exchange_yields yielded) in
  token_store w !! "alice" = Some {| token := "t1"; refresh_token := Some "r1" |}
  ∧ oauth_fetch_token get_oauth_flow (url request) (google w) = (Return yielded, google w)
  ∧ token_store (snd (google_callback request w)) !! "alice"
    = Some {| token := "t2"; refresh_token := Some "r1" |}.
Proof.
  intros request yielded w. split; [reflexivity | split; [reflexivity|]].
  destruct (callback_merges_refresh_token (E := test_env) request "abc" "alice" "t1" "t2"
              (Some "r1") None (exchange_yields yielded) w)
    as (stored & w' & Hrun & Hstore & Habsent & _ & _);
    [reflexivity | discriminate | reflexivity | reflexivity | reflexivity
    | reflexivity |].
  rewrite Hrun; simpl. rewrite Hstore, (Habsent (or_introl eq_refl)).
  apply lookup_insert_eq.
Defined.

(** The statement of C3 fails for an id that JSON cannot carry: the
    constructor of the 400 response raises [ValueError]. *)
Lemma unknown_method_with_infinite_id :
  let payload := with_id (JFloat "inf") (method_payload "foo") in
  let w := test_world ∅ offline in
  is_request payload = true
  ∧ request_method payload = JStr "foo"
  ∧ fst (mcp_handler payload w) = Raise ValueError
  ∧ ¬ answers_method_not_found payload w.
Proof.
  intros payload w.
  assert (fst (mcp_handler payload w) = Raise ValueError) as Hrun
    by (vm_compute; reflexivity).
  repeat split; try (vm_compute; reflexivity).
  intros [w' H]. rewrite H in Hrun. discriminate Hrun.
Qed.

Lemma unknown_method_not_found_witness :
  let payload := method_payload "foo" in
  let w := test_world ∅ offline in
  is_request payload = true
  ∧ render_error (request_id payload) = None
  ∧ mcp_handler payload w =
    (Return (JSONResponse 400
       (JObj {[ "jsonrpc" := JStr "2.0";
                "id" := JInt 7;
                "error" := JObj {[ "code" := JInt (-32601);
                                   "message" := JStr "Method not found" ]} ]})),
     w).
Proof.
  intros payload w. split; [reflexivity | split; [reflexivity|]].
  apply (unknown_method_not_found payload w);
    [reflexivity | discriminate | discriminate | discriminate | reflexivity].
Defined.

Lemma callback_without_code_witness :
  let request := callback_request {[ "state" := "alice" ]} in
  let w := test_world {[ "alice" := alice_record ]} offline in
  query_params request !! "code" = None
  ∧ google_callback request w =
    (Return (JObj {[ "status" := JStr "waiting for google authorization" ]}), w).
Proof.
  intros request w. split; [reflexivity|].
  apply (callback_without_code request w). reflexivity.
Defined.

(** The statement of C5 fails where it asks for a shaped rejection: a
    call without [form_id] ends in an unhandled [KeyError]. *)
Lemma call_without_form_id_is_unhandled :
  let payload := call_payload "forms.list_responses" ∅ "alice" in
  let w := test_world {[ "alice" := alice_record ]} offline in
  request_tool payload = Some (JStr "forms.list_responses")
  ∧ field "form_id" (request_arguments payload) = None
  ∧ fst (mcp_handler payload w) = Raise (KeyError "form_id")
  ∧ ¬ shaped_rejection payload w.
Proof.
  intros payload w.
  assert (fst (mcp_handler payload w) = Raise (KeyError "form_id")) as Hrun
    by (vm_compute; reflexivity).
  repeat split; try (vm_compute; reflexivity).
  intros (r & w' & H & _). rewrite H in Hrun. discriminate Hrun.
Qed.

Lemma tools_list_and_required_form_id_witness :
  let listing := method_payload "tools/list" in
  let call := call_payload "forms.get_form" {[ "max_results" := JInt 3 ]} "alice" in
  let w := test_world {[ "alice" := alice_record ]} offline in
  request_method listing = JStr "tools/list"
  ∧ request_tool call = Some (JStr "forms.get_form")
  ∧ mcp_handler listing w =
      (Return (Dict
         (JObj {[ "jsonrpc" := JStr "2.0";
                  "id" := JInt 7;
                  "result" := JObj {[ "tools" :=
                    JList [get_form_descriptor; list_responses_descriptor] ]} ]})),
       w)
  ∧ mcp_handler call w = (Raise (KeyError "form_id"), w).
Proof.
  intros listing call w.
  pose proof (tools_list_and_required_form_id listing call "forms.get_form"
                {[ "max_results" := JInt 3 ]} w) as H.
  destruct H as (Hlist & _ & _ & _ & _ & Hcall);
    [reflexivity | reflexivity | reflexivity | reflexivity | reflexivity
    | left; reflexivity | reflexivity | reflexivity |].
  split; [reflexivity | split; [reflexivity | split; [exact Hlist | exact Hcall]]].
Defined.

(** The statement of C6 fails for an id that JSON cannot carry: no 400
    response is returned, the constructor raises [ValueError]. *)
Lemma unknown_tool_with_nan_id :
  let payload := with_id (JFloat "nan") (call_payload "forms.delete_form" ∅ "alice") in
  let w := test_world ∅ offline in
  is_request payload = true
  ∧ request_method payload = JStr "tools/call"
  ∧ request_tool payload = Some (JStr "forms.delete_form")
  ∧ fst (mcp_handler payload w) = Raise ValueError
  ∧ ¬ answers_method_not_found payload w.
Proof.
  intros payload w.
  assert (fst (mcp_handler payload w) = Raise ValueError) as Hrun
    by (vm_compute; reflexivity).
  repeat split; try (vm_compute; reflexivity).
  intros [w' H]. rewrite H in Hrun. discriminate Hrun.
Qed.

Lemma unknown_tool_not_found_witness :
  let payload := call_payload "forms.delete_form" ∅ "alice" in
  let w := test_world ∅ offline in
  request_tool payload = Some (JStr "forms.delete_form")
  ∧ render_error (request_id payload) = None
  ∧ mcp_handler payload w =
    (Return (JSONResponse 400
       (JObj {[ "jsonrpc" := JStr "2.0";
                "id" := JInt 7;
                "error" := JObj {[ "code" := JInt (-32601);
                                   "message" := JStr "Method not found" ]} ]})),
     w)
  ∧ mcp_handler (method_payload "foo") w = mcp_handler payload w.
Proof.
  intros payload w.
  pose proof (unknown_tool_not_found payload (JStr "forms.delete_form") w) as H.
  destruct H as [Hrun Hsame];
    [reflexivity | reflexivity | reflexivity | discriminate | discriminate |].
  split; [reflexivity | split; [reflexivity | split; [apply Hrun; reflexivity|]]].
  apply Hsame; [reflexivity | reflexivity | discriminate..].
Defined.

Lemma list_responses_page_size_witness :
  let payload := call_payload "forms.list_responses" {[ "form_id" := JStr "X" ]} "alice" in
  let w := test_world {[ "alice" := alice_record ]} offline in
  let service := build_forms_v1 (make_credentials alice_record) in
  field "max_results" (request_arguments payload) = None
  ∧ trace (snd (mcp_handler payload w)) =
    [LoadTokens; NewCredentials (make_credentials alice_record);
     Build service; ResponsesList service (JStr "X") (JInt 5)].
Proof.
  intros payload w service. split; [reflexivity|].
  pose proof (list_responses_page_size payload (JStr "X") (JInt 5) w) as H.
  destruct H as [_ Hcall];
    [reflexivity | reflexivity | reflexivity | reflexivity
    | left; split; reflexivity |].
  destruct (Hcall "alice" alice_record) as [Htrace _]; [reflexivity | reflexivity |].
  exact Htrace.
Defined.

(** The statement of C8 fails when [form_id] is missing: no 401
    envelope is returned, the call stops with [KeyError('form_id')]. *)
Lemma gate_without_form_id :
  let payload := call_payload "forms.list_responses" {[ "max_results" := JInt 2 ]} "bob" in
  let w := test_world {[ "alice" := alice_record ]} offline in
  is_request payload = true
  ∧ request_method payload = JStr "tools/call"
  ∧ request_tool payload = Some (JStr "forms.list_responses")
  ∧ request_user payload = JStr "bob"
  ∧ token_store w !! "bob" = None
  ∧ fst (mcp_handler payload w) = Raise (KeyError "form_id")
  ∧ ¬ only_answers_unauthorized payload "bob" w.
Proof.
  intros payload w.
  assert (fst (mcp_handler payload w) = Raise (KeyError "form_id")) as Hrun
    by (vm_compute; reflexivity).
  repeat split; try (vm_compute; reflexivity).
  intros (evs & H & _). rewrite H in Hrun. discriminate Hrun.
Qed.

Lemma gate_before_upstream_work_witness :
  let payload := call_payload "forms.get_form" {[ "form_id" := JStr "X" ]} "alice" in
  let w := test_world ∅ offline in
  token_store w !! "alice" = None
  ∧ field "form_id" (request_arguments payload) = Some (JStr "X")
  ∧ mcp_handler payload w =
    (Return (Dict (auth_error (request_id payload) (JStr "alice"))),
     logged w [LoadTokens]).
Proof.
  intros payload w. split; [reflexivity | split; [reflexivity|]].
  destruct (gate_before_upstream_work payload "forms.get_form" "alice" w)
    as (_ & _ & Hreturn);
    [reflexivity | reflexivity | reflexivity | left; reflexivity
    | reflexivity | reflexivity |].
  apply (Hreturn (JStr "X")). reflexivity.
Defined.

Lemma response_carries_request_id_witness :
  let payload := method_payload "initialize" in
  let w := test_world ∅ offline in
  mcp_handler payload w = (Return (Dict (initialize_result (JInt 7))), w)
  ∧ field "id" (http_body (Dict (initialize_result (JInt 7)))) = Some (JInt 7).
Proof.
  intros payload w. split; [reflexivity|].
  apply (response_carries_request_id payload w w). reflexivity.
Defined.

Lemma list_responses_envelope_witness :
  let answers := [JObj {[ "responseId" := JStr "r-1" ]}] in
  let reply : gmap string json := {[ "responses" := JList answers ]} in
  let payload := call_payload "forms.list_responses" {[ "form_id" := JStr "X" ]} "alice" in
  let w := test_world {[ "alice" := alice_record ]} (listing_yields (JObj reply)) in
  token_store w !! "alice" = Some alice_record
  ∧ ∃ body : json,
      mcp_handler payload w =
        (Return (Dict body),
         {| token_store := token_store w; store_writable := store_writable w;
            google := listing_yields (JObj reply);
            trace := trace w ++ list_events alice_record (JStr "X") (JInt 5) |})
      ∧ body = JObj {[ "jsonrpc" := JStr "2.0";
                       "id" := JInt 7;
                       "result" := JObj {[ "content" :=
                         JList [JObj {[ "type" := JStr "json";
                                        "json" := JList answers ]}] ]} ]}
      ∧ content0_json body = Some (JList answers).
Proof.
  intros answers reply payload w. split; [reflexivity|].
  apply (list_responses_envelope (E := test_env) payload (JStr "X") (JInt 5) "alice" alice_record
           reply (listing_yields (JObj reply)) answers w);
    [reflexivity | reflexivity | reflexivity | reflexivity | reflexivity
    | reflexivity | reflexivity | reflexivity | left; reflexivity].
Defined.

(** ** The further properties on concrete runs *)

Lemma handler_reads_four_members_witness :
  let args : gmap string json := {[ "form_id" := JStr "X" ]} in
  let w := test_world ∅ offline in
  mcp_handler (bare_call_payload "forms.get_form" args) w
  = mcp_handler (call_payload "forms.get_form" args "default") w.
Proof.
  intros args w.
  apply (handler_reads_four_members (bare_call_payload "forms.get_form" args)
           (call_payload "forms.get_form" args "default") w); reflexivity.
Defined.

Lemma malformed_request_raises_witness :
  let payload := JObj {[ "method" := JStr "initialize"; "meta" := JNull ]} in
  let w := test_world {[ "alice" := alice_record ]} offline in
  is_request payload = false
  ∧ mcp_handler payload w = (Raise AttributeError, w).
Proof.
  intros payload w. split; [reflexivity|].
  apply (malformed_request_raises payload w). reflexivity.
Defined.

Lemma tools_call_without_tool_name_witness :
  let payload := method_payload "tools/call" in
  let w := test_world ∅ offline in
  request_tool payload = None
  ∧ mcp_handler payload w = (Raise (KeyError "params"), w).
Proof.
  intros payload w. split; [reflexivity|].
  apply (tools_call_without_tool_name payload w); reflexivity.
Defined.

Lemma initialize_needs_no_authorization_witness :
  let payload := method_payload "initialize" in
  let w := test_world ∅ offline in
  request_method payload = JStr "initialize"
  ∧ mcp_handler payload w =
    (Return (Dict
       (JObj {[ "jsonrpc" := JStr "2.0";
                "id" := JInt 7;
                "result" := JObj {[ "serverInfo" :=
                  JObj {[ "name" := JStr "Multi-User Google Forms MCP";
                          "version" := JStr "0.1.0" ]} ]} ]})),
     w).
Proof.
  intros payload w. split; [reflexivity|].
  apply (initialize_needs_no_authorization payload w); reflexivity.
Defined.


Lemma response_is_an_envelope_witness :
  let payload := method_payload "foo" in
  let w := test_world ∅ offline in
  let r := JSONResponse 400 (method_not_found_content (JInt 7)) in
  mcp_handler payload w = (Return r, w)
  ∧ ∃ o : gmap string json,
      http_body r = JObj o
      ∧ o !! "jsonrpc" = Some (JStr "2.0")
      ∧ (dom o = {[ "jsonrpc"; "id"; "result" ]}
         ∨ dom o = {[ "jsonrpc"; "id"; "error" ]}).
Proof.
  intros payload w r. split; [reflexivity|].
  apply (response_is_an_envelope payload w w r). reflexivity.
Defined.

Lemma get_form_envelope_witness :
  let reply := JObj {[ "formId" := JStr "X";
                       "info" := JObj {[ "title" := JStr "T" ]};
                       "revisionId" := JStr "00000001" ]} in
  let payload := call_payload "forms.get_form" {[ "form_id" := JStr "X" ]} "alice" in
  let w := test_world {[ "alice" := alice_record ]}
             (exchange_and_form_yield alice_record reply) in
  token_store w !! "alice" = Some alice_record
  ∧ content0_json (http_body (default (Dict JNull)
                     (match fst (mcp_handler payload w) with
                      | Return r => Some r
                      | Raise _ => None
                      end)))
    = Some (JObj {[ "formId" := JStr "X";
                    "title" := JStr "T";
                    "documentTitle" := JNull ]}).
Proof.
  intros reply payload w. split; [reflexivity|].
  rewrite (get_form_envelope (E := test_env) payload (JStr "X") (JStr "X") (JStr "T")
             "alice" alice_record
             {[ "formId" := JStr "X";
                "info" := JObj {[ "title" := JStr "T" ]};
                "revisionId" := JStr "00000001" ]}
             {[ "title" := JStr "T" ]}
             (exchange_and_form_yield alice_record reply) w);
    reflexivity.
Defined.

Lemma get_form_incomplete_reply_witness :
  let reply : gmap string json := {[ "formId" := JStr "X" ]} in
  let payload := call_payload "forms.get_form" {[ "form_id" := JStr "X" ]} "alice" in
  let w := test_world {[ "alice" := alice_record ]}
             (exchange_and_form_yield alice_record (JObj reply)) in
  reply !! "info" = None
  ∧ fst (mcp_handler payload w) = Raise (KeyError "info").
Proof.
  intros reply payload w. split; [reflexivity|].
  rewrite (get_form_incomplete_reply (E := test_env) payload (JStr "X") "alice" "info"
             alice_record reply
             (exchange_and_form_yield alice_record (JObj reply)) w);
    try reflexivity.
  right; left. split; [by eexists | split; reflexivity].
Defined.

Lemma upstream_failure_propagates_witness :
  let payload := call_payload "forms.list_responses" {[ "form_id" := JStr "X" ]} "alice" in
  let w := test_world {[ "alice" := alice_record ]} offline in
  token_store w !! "alice" = Some alice_record
  ∧ fst (mcp_handler payload w) = Raise (ExternalError "forms API unreachable").
Proof.
  intros payload w. split; [reflexivity|].
  rewrite (upstream_failure_propagates (E := test_env) payload (JStr "X")
             "forms.list_responses" "alice" alice_record
             (ExternalError "forms API unreachable") offline
             (list_events alice_record (JStr "X") (JInt 5)) w);
    try reflexivity.
  right. split; [reflexivity | split; reflexivity].
Defined.

Lemma get_form_returns_only_the_summary_witness :
  let reply := JObj {[ "formId" := JStr "X";
                       "info" := JObj {[ "title" := JStr "T";
                                         "documentTitle" := JStr "D" ]};
                       "items" := JList [JStr "secret"] ]} in
  let payload := call_payload "forms.get_form" {[ "form_id" := JStr "X" ]} "alice" in
  let w := test_world {[ "alice" := alice_record ]}
             (exchange_and_form_yield alice_record reply) in
  let summary := JObj {[ "formId" := JStr "X"; "title" := JStr "T";
                         "documentTitle" := JStr "D" ]} in
  fst (mcp_handler payload w) = Return (Dict (tool_result (JInt 7) summary))
  ∧ ∃ o : gmap string json,
      Dict (tool_result (JInt 7) summary) = Dict (tool_result (request_id payload) (JObj o))
      ∧ dom o = {[ "formId"; "title"; "documentTitle" ]}.
Proof.
  intros reply payload w summary. split; [reflexivity|].
  apply (get_form_returns_only_the_summary (E := test_env) payload (JStr "X") "alice"
           alice_record w (snd (mcp_handler payload w)));
    reflexivity.
Defined.

Lemma list_responses_passes_through_witness :
  let reply : gmap string json := {[ "responses" := JNull ]} in
  let payload := call_payload "forms.list_responses" {[ "form_id" := JStr "X" ]} "alice" in
  let w := test_world {[ "alice" := alice_record ]} (listing_yields (JObj reply)) in
  token_store w !! "alice" = Some alice_record
  ∧ fst (mcp_handler payload w) = Return (Dict (tool_result (JInt 7) JNull)).
Proof.
  intros reply payload w. split; [reflexivity|].
  rewrite (list_responses_passes_through (E := test_env) payload (JStr "X") "alice"
             alice_record reply (listing_yields (JObj reply)) w);
    reflexivity.
Defined.

Lemma non_string_user_is_unauthorized_witness :
  let payload := call_payload_as "forms.get_form" {[ "form_id" := JStr "X" ]} (JInt 5) in
  let w := test_world {[ "5" := alice_record ]} offline in
  token_store w !! "5" = Some alice_record
  ∧ mcp_handler payload w =
    (Return (Dict
       (JObj {[ "jsonrpc" := JStr "2.0";
                "id" := JInt 7;
                "error" := JObj {[
                  "code" := JInt 401;
                  "message" := JStr "Google Forms not connected for user '5'. Visit https://mcp.example/auth/google?user_id=5" ]} ]})),
     logged w [LoadTokens]).
Proof.
  intros payload w. split; [reflexivity|].
  apply (non_string_user_is_unauthorized payload "forms.get_form" (JStr "X") w);
    first [reflexivity | left; reflexivity | exact I].
Defined.

Lemma unhashable_user_raises_witness :
  let payload := call_payload_as "forms.list_responses" {[ "form_id" := JStr "X" ]}
                   (JList [JStr "alice"]) in
  let w := test_world {[ "alice" := alice_record ]} offline in
  mcp_handler payload w = (Raise TypeError, logged w [LoadTokens]).
Proof.
  intros payload w.
  apply (unhashable_user_raises payload "forms.list_responses" (JStr "X") w);
    first [reflexivity | right; reflexivity | exact I].
Defined.

Lemma first_authorization_creates_record_witness :
  let request := callback_request {[ "code" := "abc" ]} in
  let yielded := {| token := "t2"; refresh_token := Some "" |} in
  let w := test_world ∅ (exchange_yields yielded) in
  token_store w !! "default" = None
  ∧ token_store (snd (google_callback request w))
    = {[ "default" := {| token := "t2"; refresh_token := None |} ]}.
Proof.
  intros request yielded w. split; [reflexivity|].
  rewrite (first_authorization_creates_record (E := test_env) request "abc" "default"
             "t2" (Some "") (exchange_yields yielded) w);
    [reflexivity | reflexivity | discriminate | reflexivity..].
Defined.

Lemma callback_with_empty_code_witness :
  let request := callback_request {[ "code" := ""; "state" := "alice" ]} in
  let w := test_world ∅ (exchange_yields alice_record) in
  google_callback request w =
  (Return (JObj {[ "status" := JStr "waiting for google authorization" ]}), w).
Proof.
  intros request w. apply (callback_with_empty_code request w). reflexivity.
Defined.

Lemma callback_exchange_failure_witness :
  let request := callback_request {[ "code" := "abc"; "state" := "alice" ]} in
  let w := test_world {[ "alice" := alice_record ]} offline in
  fst (google_callback request w) = Raise (ExternalError "token endpoint unreachable")
  ∧ trace (snd (google_callback request w))
    = [FetchToken get_oauth_flow "https://mcp.example/auth/google/callback"].
Proof.
  intros request w.
  rewrite (callback_exchange_failure (E := test_env) request "abc"
             (ExternalError "token endpoint unreachable") offline w);
    [split; reflexivity | reflexivity | discriminate | reflexivity].
Defined.

Lemma callback_keeps_refresh_tokens_witness :
  let request := callback_request {[ "code" := "abc"; "state" := "alice" ]} in
  let again := {| token := "t2"; refresh_token := None |} in
  let w := test_world {[ "alice" := alice_record ]} (exchange_yields again) in
  has_refresh_token (token_store w) "alice" = true
  ∧ has_refresh_token (token_store (snd (google_callback request w))) "alice" = true.
Proof.
  intros request again w. split; [reflexivity|].
  apply (callback_keeps_refresh_tokens request w (snd (google_callback request w))
           (JObj {[ "status" := JStr "forms connected successfully";
                    "user" := JStr "alice" ]}) "alice");
    reflexivity.
Defined.

Lemma callback_touches_one_record_witness :
  let request := callback_request {[ "code" := "abc"; "state" := "bob" ]} in
  let w := test_world {[ "alice" := alice_record ]}
             (exchange_yields {| token := "t2"; refresh_token := None |}) in
  token_store (snd (google_callback request w)) !! "bob"
    = Some {| token := "t2"; refresh_token := None |}
  ∧ token_store (snd (google_callback request w)) !! "alice" = Some alice_record.
Proof.
  intros request w. split; [reflexivity|].
  destruct (callback_touches_one_record request w (snd (google_callback request w))
              (JObj {[ "status" := JStr "forms connected successfully";
                       "user" := JStr "bob" ]}))
    as [Hother _]; [reflexivity|].
  rewrite (Hother "alice"); [reflexivity | discriminate].
Defined.

Lemma callback_then_call_reaches_google_witness :
  let request := callback_request {[ "code" := "abc"; "state" := "alice" ]} in
  let yielded := {| token := "t2"; refresh_token := Some "r2" |} in
  let reply := JObj {[ "formId" := JStr "X"; "info" := JObj {[ "title" := JStr "T" ]} ]} in
  let payload := call_payload "forms.get_form" {[ "form_id" := JStr "X" ]} "alice" in
  let w := test_world ∅ (exchange_and_form_yield yielded reply) in
  let w' := serve (GetCallback request) w in
  token_store w !! "alice" = None
  ∧ token_store w' !! "alice" = Some yielded
  ∧ trace (serve (PostMcp payload) w') = (trace w' ++ get_events yielded (JStr "X"))%list.
Proof.
  intros request yielded reply payload w w'. split; [reflexivity|].
  destruct (callback_then_call_reaches_google (E := test_env) request "abc" "alice" "t2"
              (Some "r2") (exchange_and_form_yield yielded reply) payload (JStr "X") w)
    as (Hrec & Htrace & _);
    [reflexivity | discriminate | reflexivity..|].
  split; [exact Hrec | exact Htrace].
Defined.
